(** * A shallow embedding of the Lox tree-walking evaluator

    The development follows the three source files of the interpreter:
    - [lox/ast.py]: the value helpers ([is_implicit_int], [auto_convert],
      [is_truthy], [lox_str]) and the [eval] method of every node class;
    - [lox/runtime.py]: [LoxFunction], [LoxReturn] and the primitive
      operations bound to operator nodes;
    - [lox/transformer.py]: the construction of the tree, of which
      [build_for] is embedded.

    Python values are modelled as they are at run time: [float] is an IEEE
    binary64 number (Stdlib's [spec_float] at precision 53), [int] is an
    unbounded integer, [str] is a string of characters with code points
    below 256, dictionaries are finite maps and objects live in a store
    addressed by allocation order.  Exceptions are results of an error
    monad that threads the store.  The evaluator is recursive on an amount
    of fuel; the resource limits of the host (recursion depth, memory) are
    not modelled. *)

From Stdlib Require Import ZArith String Ascii Bool.
From Stdlib Require Import Floats.SpecFloat.
From stdpp Require Import gmap strings list fin_maps pretty.

Open Scope string_scope.
Open Scope Z_scope.

Set Warnings "-register-all".

(** ** Host floating-point numbers (Python [float]) *)

Module PyFloat.

Abbreviation float := spec_float.

Definition prec : Z := 53.
Definition emax : Z := 1024.

(** [float(n)] for an integer literal of the model. *)
Definition of_Z (z : Z) : float := binary_normalize prec emax z 0 false.

Definition add : float -> float -> float := SFadd prec emax.
Definition sub : float -> float -> float := SFsub prec emax.
Definition mul : float -> float -> float := SFmul prec emax.
Definition div : float -> float -> float := SFdiv prec emax.
Definition opp : float -> float := SFopp.

Definition is_zero (f : float) : bool :=
  match f with S754_zero _ => true | _ => false end.

(** Sign bit; the sign of a NaN is never consulted. *)
Definition sign (f : float) : bool :=
  match f with
  | S754_zero s | S754_infinity s | S754_finite s _ _ => s
  | S754_nan => false
  end.

(** [x < 0.0] in C: false on NaN and on both zeros. *)
Definition is_negative (f : float) : bool :=
  match f with
  | S754_infinity s | S754_finite s _ _ => s
  | _ => false
  end.

(** Neither an infinity nor a NaN. *)
Definition is_finite (f : float) : bool :=
  match f with
  | S754_zero _ | S754_finite _ _ _ => true
  | S754_infinity _ | S754_nan => false
  end.

(** [float.is_integer()]: finite and without fractional part. *)
Definition is_integer (f : float) : bool :=
  match f with
  | S754_zero _ => true
  | S754_finite _ m e =>
      if 0 <=? e then true else Z.pos m mod 2 ^ (- e) =? 0
  | S754_infinity _ | S754_nan => false
  end.

(** The integer part of a finite float, truncated toward zero. *)
Definition trunc (f : float) : Z :=
  match f with
  | S754_finite s m e =>
      cond_Zopp s (if 0 <=? e then Z.pos m * 2 ^ e else Z.pos m / 2 ^ (- e))
  | _ => 0
  end.

(** C [floor] on doubles. *)
Definition floor (f : float) : float :=
  match f with
  | S754_finite s m e =>
      if 0 <=? e then f
      else
        let q := Z.pos m / 2 ^ (- e) in
        let exact := Z.pos m mod 2 ^ (- e) =? 0 in
        let z := if s then (if exact then - q else - (q + 1)) else q in
        binary_normalize prec emax z 0 s
  | _ => f
  end.

(** C [fmod]: the result has the sign of the dividend and is exact. *)
Definition fmod (x y : float) : float :=
  match x, y with
  | S754_nan, _ | _, S754_nan => S754_nan
  | S754_infinity _, _ => S754_nan
  | _, S754_zero _ => S754_nan
  | _, S754_infinity _ => x
  | S754_zero _, _ => x
  | S754_finite sx mx ex, S754_finite _ my ey =>
      let e := Z.min ex ey in
      let X := Z.pos mx * 2 ^ (ex - e) in
      let Y := Z.pos my * 2 ^ (ey - e) in
      binary_normalize prec emax (cond_Zopp sx (X mod Y)) e sx
  end.

(** [copysign(0.0, x)] *)
Definition zero_with_sign_of (x : float) : float := S754_zero (sign x).

Definition one : float := of_Z 1.
Definition half : float := div one (of_Z 2).

(** CPython's [float_floor_div] for a non-zero divisor (the quotient part
    of [_float_div_mod] in Objects/floatobject.c). *)
Definition floor_div (vx wx : float) : float :=
  let md := fmod vx wx in
  let dv := div (sub vx md) wx in
  let dv :=
    if negb (is_zero md) && negb (Bool.eqb (is_negative wx) (is_negative md))
    then sub dv one else dv in
  if negb (is_zero dv) then
    let fl := floor dv in
    if SFltb half (sub dv fl) then add fl one else fl
  else zero_with_sign_of (div vx wx).

(** Exact comparison of an integer with a float, as Python's mixed
    comparisons do; [None] when the float is a NaN. *)
Definition compare_Z (z : Z) (f : float) : option comparison :=
  match f with
  | S754_nan => None
  | S754_infinity s => Some (if s then Gt else Lt)
  | S754_zero _ => Some (z ?= 0)
  | S754_finite s m e =>
      if 0 <=? e then Some (z ?= cond_Zopp s (Z.pos m * 2 ^ e))
      else Some (z * 2 ^ (- e) ?= cond_Zopp s (Z.pos m))
  end.

(** *** The text of a float ([float.__repr__])

    The digits are the shortest string of decimal digits that reads back as
    the same float and, among the shortest, the nearest to its value, a tie
    going to the even digit (David Gay's [dtoa] in mode 0, which CPython
    calls); [format_float_short] of Python/pystrtod.c lays them out, with
    an exponent when the decimal point falls more than 16 places to the
    right of the first digit or more than 3 to its left. *)

Definition emin : Z := 3 - emax - prec.

(** The mantissa on its 53 bits, unless the exponent is the least one. *)
Definition canonical (m e : Z) : Z * Z :=
  let shift := Z.min (prec - 1 - Z.log2 m) (e - emin) in
  if 0 <? shift then (m * 2 ^ shift, e - shift) else (m, e).

(** [x * 2^ex] compared with [d * 10^k]. *)
Definition compare_bin_dec (x ex d k : Z) : comparison :=
  (x * 2 ^ Z.max ex 0 * 10 ^ Z.max (- k) 0
   ?= d * 10 ^ Z.max k 0 * 2 ^ Z.max (- ex) 0).

(** The integer part of [m * 2^e / 10^k]. *)
Definition floor_bin_dec (m e k : Z) : Z :=
  (m * 2 ^ Z.max e 0 * 10 ^ Z.max (- k) 0)
  / (2 ^ Z.max (- e) 0 * 10 ^ Z.max k 0).

(** The integer part of the decimal logarithm of [m * 2^e]: an estimate
    from the binary logarithm, put right by comparison. *)
Definition floor_log10 (m e : Z) : Z :=
  let t := (Z.log2 m + e) * 30103 / 100000 in
  let t := match compare_bin_dec m e 1 t with Lt => t - 1 | _ => t end in
  match compare_bin_dec m e 1 (t + 1) with Lt => t | _ => t + 1 end.

(** [d * 10^k] reads back as the float [m * 2^e]: it lies between the two
    midpoints with the neighbouring floats, a midpoint included when the
    mantissa is even.  The neighbour below a power of two is half as far. *)
Definition rounds_to (m e d k : Z) : bool :=
  let below := if (m =? 2 ^ (prec - 1)) && (emin <? e) then 1 else 2 in
  match compare_bin_dec (4 * m - below) (e - 2) d k with
  | Lt => true
  | Eq => Z.even m
  | Gt => false
  end
  &&
  match compare_bin_dec (4 * m + 2) (e - 2) d k with
  | Gt => true
  | Eq => Z.even m
  | Lt => false
  end.

(** The digits [d] and the exponent [k] of the text, trying [n], [n + 1],
    ... digits; 17 digits always read back. *)
Fixpoint shortest (fuel : nat) (n m e t : Z) : Z * Z :=
  let k := t + 1 - n in
  let lo := floor_bin_dec m e k in
  let hi := lo + 1 in
  match fuel with
  | O => (lo, k)
  | S fuel' =>
      match rounds_to m e lo k, rounds_to m e hi k with
      | true, true =>
          match compare_bin_dec (2 * m) e (2 * lo + 1) k with
          | Lt => (lo, k)
          | Gt => (hi, k)
          | Eq => if Z.even lo then (lo, k) else (hi, k)
          end
      | true, false => (lo, k)
      | false, true => (hi, k)
      | false, false => shortest fuel' (n + 1) m e t
      end
  end.

Fixpoint strip_zeros (fuel : nat) (d k : Z) : Z * Z :=
  match fuel with
  | O => (d, k)
  | S fuel' =>
      if (0 <? d) && (d mod 10 =? 0) then strip_zeros fuel' (d / 10) (k + 1)
      else (d, k)
  end.

Fixpoint zeros (n : nat) : string :=
  match n with
  | O => ""
  | S n' => "0" +:+ zeros n'
  end.

(** The exponent: a sign and at least two digits. *)
Definition exponent (x : Z) : string :=
  (if x <? 0 then "-" else "+") +:+ (if Z.abs x <? 10 then "0" else "")
  +:+ pretty (Z.abs x).

(** The digits [ds] laid out with the decimal point [decpt] places to the
    right of the first digit's left edge. *)
Definition layout (ds : string) (decpt : Z) : string :=
  let nd := String.length ds in
  if (decpt <=? -4) || (16 <? decpt) then
    substring 0 1 ds
    +:+ (if (1 <? nd)%nat then "." +:+ substring 1 (nd - 1) ds else "")
    +:+ "e" +:+ exponent (decpt - 1)
  else if decpt <=? 0 then "0." +:+ zeros (Z.to_nat (- decpt)) +:+ ds
  else if Z.of_nat nd <=? decpt then
    ds +:+ zeros (Z.to_nat decpt - nd) +:+ ".0"
  else substring 0 (Z.to_nat decpt) ds
       +:+ "." +:+ substring (Z.to_nat decpt) (nd - Z.to_nat decpt) ds.

Definition repr_finite (m e : Z) : string :=
  let '(m, e) := canonical m e in
  let '(d, k) := shortest 17 1 m e (floor_log10 m e) in
  let '(d, k) := strip_zeros 17 d k in
  let ds := pretty d in
  layout ds (Z.of_nat (String.length ds) + k).

Definition repr (f : float) : string :=
  match f with
  | S754_nan => "nan"
  | S754_infinity s => if s then "-inf" else "inf"
  | S754_zero s => if s then "-0.0" else "0.0"
  | S754_finite s m e => (if s then "-" else "") +:+ repr_finite (Z.pos m) e
  end.

End PyFloat.

Export PyFloat (float).


(** ** Values

    [Value = bool | str | float | None] in [ast.py]; at run time a value is
    also an [int] (the result of [int(...)] in [auto_convert] and
    [BinOp.eval]) or a [LoxFunction] object, held by reference. *)

Inductive Value :=
| VNone
| VBool (b : bool)
| VFloat (f : float)
| VInt (z : Z)
| VStr (s : string)
| VFun (ref : nat).

#[global] Instance Value_inhabited : Inhabited Value := populate VNone.

(** ** Syntax nodes ([ast.py]) *)

(** The primitive operations that [transformer.py] binds to [BinOp] and
    [UnaryOp] nodes ([op.add], ..., [op.ne]; [op.not_], [op.neg]). *)
Module op.
Inductive BinOperator := add | sub | mul | floordiv | gt | lt | ge | le | eq | ne.
Inductive UnOperator := not_ | neg.
End op.

Record Param := { param_name : string; param_type_annotation : option string }.

Inductive Expr :=
| BinOp (left right : Expr) (op : op.BinOperator)
| Var (name : string)
| Literal (value : Value)
| And (left right : Expr)
| Or (left right : Expr)
| UnaryOp (op : op.UnOperator) (value : Expr)
| Call (obj : Expr) (params : list Expr)
| This
| Super
| Assign (name : string) (value : Expr)
| Getattr (value : Expr) (attr : string)
| Setattr (obj : Expr) (attr : string) (value : Expr).

(** Statements.  [ExprStmt] is an expression in statement position (the
    transformer's [expr_stmt] returns the expression itself); [Block] is a
    [Node] that occurs wherever a statement does; the body of a [Function]
    is the statement list of its [Block]. *)
Inductive Stmt :=
| ExprStmt (e : Expr)
| DoWhileStmt (body : Stmt) (condition : Expr)
| Print (expr : Expr)
| Return (value : option Expr)
| VarDef (name : string) (value : option Expr) (type_annotation : option string)
| If (cond : Expr) (then_branch : Stmt) (else_branch : option Stmt)
| While (expr : Expr) (stmt : Stmt)
| Block (stmts : list Stmt)
| Function (name : string) (params : list Param) (body : list Stmt)
| Class_.

Record Program := { stmts : list Stmt }.

(** ** Exceptions and results *)

Inductive TypeErrorMsg :=
| NotAFunction (callee : Expr)            (* f"{self.obj} não é uma função!" *)
| WrongArity (expected actual : nat)      (* f"Expected {..} arguments but got {..}." *)
| BadOperand (l r : Value)                (* raised by the host operator *)
| UnhashableParam (p : Param)             (* unhashable type: 'Param' *)
| NotCallable (v : Value)                 (* 'float' object is not callable *)
| NotAClass (v : Value).                  (* __class__ must be set to a class *)

(** Keys of a binding table: the names of variables and functions.  A
    table is a dictionary, whose keys are hashed; a string has a hash, a
    [Param] object has none (see [var_def_param]). *)
Inductive Key := KName (s : string).

Inductive Exn :=
| LoxReturn (value : Value)
| NameError (name : string)
| KeyError (key : Key)
| TypeError (msg : TypeErrorMsg)
| ZeroDivisionError
| OverflowError
| ValueError
| AttributeError.

(** The outcome of a computation: a value, a raised exception, a behaviour
    of the host that the model does not cover, or exhausted fuel. *)
Inductive Res (A : Type) :=
| Ok (a : A)
| Raise (e : Exn)
| Unsupported
| OutOfFuel.
Arguments Ok {A} a.
Arguments Raise {A} e.
Arguments Unsupported {A}.
Arguments OutOfFuel {A}.

Definition res_bind {A B} (r : Res A) (k : A -> Res B) : Res B :=
  match r with
  | Ok a => k a
  | Raise e => Raise e
  | Unsupported => Unsupported
  | OutOfFuel => OutOfFuel
  end.

(** ** Host primitives on values ([operator.*], [int], [str.isdigit]) *)

Module Host.

Inductive Num := NInt (z : Z) | NFloat (f : float).

(** Numeric view of a value; [bool] is a subclass of [int]. *)
Definition as_num (v : Value) : option Num :=
  match v with
  | VBool b => Some (NInt (Z.b2z b))
  | VInt z => Some (NInt z)
  | VFloat f => Some (NFloat f)
  | _ => None
  end.

(** [float(n)] for an [int]: rounds to nearest, raises on overflow. *)
Definition float_of_int (z : Z) : Res float :=
  match PyFloat.of_Z z with
  | S754_infinity _ => Raise OverflowError
  | f => Ok f
  end.

(** [int(x)] for a [float]. *)
Definition int_of_float (f : float) : Res Z :=
  match f with
  | S754_infinity _ => Raise OverflowError
  | S754_nan => Raise ValueError
  | _ => Ok (PyFloat.trunc f)
  end.

(** A decimal digit, [0] to [9]: what [int] reads. *)
Definition is_ascii_digit (c : ascii) : bool :=
  let n := nat_of_ascii c in ((48 <=? n) && (n <=? 57))%nat.

Fixpoint all_digits (s : string) : bool :=
  match s with
  | EmptyString => true
  | String c s' => is_ascii_digit c && all_digits s'
  end.

(** A character that [str.isdigit] accepts: below code point 256 these are
    the decimal digits and the superscripts two, three and one (code points
    178, 179 and 185). *)
Definition is_digit_char (c : ascii) : bool :=
  is_ascii_digit c || bool_decide (nat_of_ascii c ∈ [178; 179; 185]%nat).

Fixpoint all_digit_chars (s : string) : bool :=
  match s with
  | EmptyString => true
  | String c s' => is_digit_char c && all_digit_chars s'
  end.

(** [str.isdigit()]: non-empty and made of digit characters. *)
Definition isdigit (s : string) : Res bool :=
  Ok (match s with
      | EmptyString => false
      | _ => all_digit_chars s
      end).

Fixpoint int_of_digits (acc : Z) (s : string) : Z :=
  match s with
  | EmptyString => acc
  | String c s' => int_of_digits (10 * acc + (Z.of_nat (nat_of_ascii c) - 48)) s'
  end.

(** The interpreter's default bound on the number of digits in conversions
    between [int] and [str] ([sys.get_int_max_str_digits()], in the
    releases from 3.10.7 on): a longer conversion raises [ValueError]. *)
Definition max_str_digits : nat := 4300.

(** [int(s)] for a string that [isdigit] accepts: the superscripts are not
    decimal digits, and [int] raises on them. *)
Definition int_of_str (s : string) : Res Z :=
  if all_digits s then
    if (String.length s <=? max_str_digits)%nat then Ok (int_of_digits 0 s)
    else Raise ValueError
  else Raise ValueError.

(** [str(n)] for an [int]. *)
Definition str_of_int (z : Z) : Res string :=
  if Z.abs z <? 10 ^ Z.of_nat max_str_digits then Ok (pretty z)
  else Raise ValueError.

(** Binary arithmetic on numbers, with the host's int-to-float promotion. *)
Definition arith (fi : Z -> Z -> Res Value) (ff : float -> float -> Res Value)
    (a b : Num) : Res Value :=
  match a, b with
  | NInt x, NInt y => fi x y
  | NInt x, NFloat y => res_bind (float_of_int x) (fun fx => ff fx y)
  | NFloat x, NInt y => res_bind (float_of_int y) (fun fy => ff x fy)
  | NFloat x, NFloat y => ff x y
  end.

Fixpoint repeat_str (n : nat) (s : string) : string :=
  match n with
  | O => ""
  | S n' => s +:+ repeat_str n' s
  end.

Definition py_add (l r : Value) : Res Value :=
  match as_num l, as_num r with
  | Some a, Some b =>
      arith (fun x y => Ok (VInt (x + y)))
            (fun x y => Ok (VFloat (PyFloat.add x y))) a b
  | _, _ =>
      match l, r with
      | VStr a, VStr b => Ok (VStr (a +:+ b))
      | _, _ => Raise (TypeError (BadOperand l r))
      end
  end.

Definition py_sub (l r : Value) : Res Value :=
  match as_num l, as_num r with
  | Some a, Some b =>
      arith (fun x y => Ok (VInt (x - y)))
            (fun x y => Ok (VFloat (PyFloat.sub x y))) a b
  | _, _ => Raise (TypeError (BadOperand l r))
  end.

Definition py_mul (l r : Value) : Res Value :=
  match as_num l, as_num r with
  | Some a, Some b =>
      arith (fun x y => Ok (VInt (x * y)))
            (fun x y => Ok (VFloat (PyFloat.mul x y))) a b
  | Some (NInt n), None =>
      match r with
      | VStr s => Ok (VStr (repeat_str (Z.to_nat n) s))
      | _ => Raise (TypeError (BadOperand l r))
      end
  | None, Some (NInt n) =>
      match l with
      | VStr s => Ok (VStr (repeat_str (Z.to_nat n) s))
      | _ => Raise (TypeError (BadOperand l r))
      end
  | _, _ => Raise (TypeError (BadOperand l r))
  end.

(** [runtime.floordiv]: [a // b]. *)
Definition py_floordiv (l r : Value) : Res Value :=
  match as_num l, as_num r with
  | Some a, Some b =>
      arith (fun x y => if y =? 0 then Raise ZeroDivisionError
                        else Ok (VInt (x / y)))
            (fun x y => if PyFloat.is_zero y then Raise ZeroDivisionError
                        else Ok (VFloat (PyFloat.floor_div x y))) a b
  | _, _ => Raise (TypeError (BadOperand l r))
  end.

(** Three-way comparison of numbers; [None] when a NaN is involved. *)
Definition compare_num (a b : Num) : option comparison :=
  match a, b with
  | NInt x, NInt y => Some (x ?= y)
  | NInt x, NFloat y => PyFloat.compare_Z x y
  | NFloat x, NInt y => CompOpp <$> PyFloat.compare_Z y x
  | NFloat x, NFloat y => SFcompare x y
  end.

(** Ordering comparisons: numbers with numbers, strings with strings. *)
Definition py_order (test : comparison -> bool) (l r : Value) : Res Value :=
  match as_num l, as_num r with
  | Some a, Some b =>
      Ok (VBool (match compare_num a b with Some c => test c | None => false end))
  | _, _ =>
      match l, r with
      | VStr a, VStr b => Ok (VBool (test (String.compare a b)))
      | _, _ => Raise (TypeError (BadOperand l r))
      end
  end.

Definition is_Lt (c : comparison) := match c with Lt => true | _ => false end.
Definition is_Gt (c : comparison) := match c with Gt => true | _ => false end.
Definition is_Eq (c : comparison) := match c with Eq => true | _ => false end.

(** [a == b]; never raises.  Two distinct function objects are compared
    field by field by the dataclass, which the model does not cover. *)
Definition py_eq (l r : Value) : Res bool :=
  match as_num l, as_num r with
  | Some a, Some b =>
      Ok (match compare_num a b with Some c => is_Eq c | None => false end)
  | _, _ =>
      match l, r with
      | VNone, VNone => Ok true
      | VStr a, VStr b => Ok (bool_decide (a = b))
      | VFun a, VFun b => if bool_decide (a = b) then Ok true else Unsupported
      | _, _ => Ok false
      end
  end.

(** Python truth value, as used by [not]. *)
Definition py_bool (v : Value) : bool :=
  match v with
  | VNone => false
  | VBool b => b
  | VFloat f => negb (PyFloat.is_zero f)
  | VInt z => negb (z =? 0)
  | VStr s => negb (bool_decide (s = ""))
  | VFun _ => true
  end.

Definition py_neg (v : Value) : Res Value :=
  match as_num v with
  | Some (NInt z) => Ok (VInt (- z))
  | Some (NFloat f) => Ok (VFloat (PyFloat.opp f))
  | None => Raise (TypeError (BadOperand v v))
  end.

(** [str(value)].  The text of a function object is the one its dataclass
    generates, which holds the text of its [Ctx] ([lox/ctx.py]); it is not
    modelled. *)
Definition py_str (value : Value) : Res string :=
  match value with
  | VNone => Ok "None"
  | VBool b => Ok (if b then "True" else "False")
  | VFloat f => Ok (PyFloat.repr f)
  | VInt z => str_of_int z
  | VStr s => Ok s
  | VFun _ => Unsupported
  end.

End Host.

(** The callable bound to a [BinOp] node. *)
Definition apply_binop (op : op.BinOperator) (l r : Value) : Res Value :=
  match op with
  | op.add => Host.py_add l r
  | op.sub => Host.py_sub l r
  | op.mul => Host.py_mul l r
  | op.floordiv => Host.py_floordiv l r
  | op.gt => Host.py_order Host.is_Gt l r
  | op.lt => Host.py_order Host.is_Lt l r
  | op.ge => Host.py_order (fun c => negb (Host.is_Lt c)) l r
  | op.le => Host.py_order (fun c => negb (Host.is_Gt c)) l r
  | op.eq => res_bind (Host.py_eq l r) (fun b => Ok (VBool b))
  | op.ne => res_bind (Host.py_eq l r) (fun b => Ok (VBool (negb b)))
  end.

(** The callable bound to a [UnaryOp] node. *)
Definition apply_unop (op : op.UnOperator) (v : Value) : Res Value :=
  match op with
  | op.not_ => Ok (VBool (negb (Host.py_bool v)))
  | op.neg => Host.py_neg v
  end.

(** ** Value helpers of [ast.py] *)

(** [name and name[0] in "ijklmn"] *)
Definition is_implicit_int (name : string) : bool :=
  match name with
  | EmptyString => false
  | String c _ => existsb (Ascii.eqb c) (list_ascii_of_string "ijklmn")
  end.

(** [auto_convert]: the three [isinstance] tests in source order; each
    conversion is the host's [int(value)], which raises on an infinite or
    NaN float. *)
Definition auto_convert (name : string) (value : Value) : Res Value :=
  if is_implicit_int name then
    match value with
    | VStr s =>
        res_bind (Host.isdigit s) (fun digits =>
          if digits then res_bind (Host.int_of_str s) (fun z => Ok (VInt z))
          else Ok value)
    | VFloat f => res_bind (Host.int_of_float f) (fun z => Ok (VInt z))
    | VBool b => Ok (VInt (Z.b2z b))
    | _ => Ok value
    end
  else Ok value.

Definition is_truthy (value : Value) : bool :=
  match value with
  | VNone => false
  | VBool b => b
  | _ => true
  end.

(** [lox_str]: the three tests of the source in order, then the host's
    [str(value)]; [str(value).lower()] of a boolean is written out. *)
Definition lox_str (value : Value) : Res string :=
  match value with
  | VNone => Ok "nil"
  | VBool b => Ok (if b then "true" else "false")
  | VFloat f => if PyFloat.is_integer f then Host.str_of_int (PyFloat.trunc f)
                else Host.py_str value
  | _ => Host.py_str value
  end.

(** ** The store: binding tables, function objects and the output stream *)

#[global] Instance Param_eq_dec : EqDecision Param.
Proof. solve_decision. Defined.
#[global] Instance Key_eq_dec : EqDecision Key.
Proof. solve_decision. Defined.
#[global] Instance Key_countable : Countable Key.
Proof.
  refine (inj_countable' (fun k => match k with KName s => s end) KName _).
  intros [s]; reflexivity.
Defined.

(** Modelled from the spec: the environment of section 3, a binding table
    and an optional link to a parent environment, the class [Ctx] of
    [lox/ctx.py] that the source files import.  The table is a mutable
    dictionary, held by its address in the store; the link is fixed at
    construction ([Ctx(scope={}, parent=...)]). *)
Inductive Ctx := MkCtx { scope : nat; parent : option Ctx }.

(** [runtime.LoxFunction].  [fn_name] holds a value because attribute
    assignment may overwrite it; [fn_attrs] is the rest of the instance
    dictionary. *)
Record LoxFunction := {
  fn_name : Value;
  fn_params : list Param;
  fn_body : list Stmt;
  fn_closure : Ctx;
  fn_attrs : gmap string Value
}.

Record State := {
  scopes : list (gmap Key Value);
  functions : list LoxFunction;
  stdout : list string
}.

Definition set_scopes (sc : list (gmap Key Value)) (s : State) : State :=
  {| scopes := sc; functions := functions s; stdout := stdout s |}.
Definition set_functions (fs : list LoxFunction) (s : State) : State :=
  {| scopes := scopes s; functions := fs; stdout := stdout s |}.
Definition set_stdout (out : list string) (s : State) : State :=
  {| scopes := scopes s; functions := functions s; stdout := out |}.

(** ** The evaluation monad: store passing with exceptions *)

Definition M (A : Type) : Type := State -> Res A * State.

#[global] Instance M_ret : MRet M := fun A a s => (Ok a, s).
#[global] Instance M_bind : MBind M := fun A B k m s =>
  match m s with
  | (Ok a, s') => k a s'
  | (Raise e, s') => (Raise e, s')
  | (Unsupported, s') => (Unsupported, s')
  | (OutOfFuel, s') => (OutOfFuel, s')
  end.

Definition raise {A} (e : Exn) : M A := fun s => (Raise e, s).
Definition unsupported {A} : M A := fun s => (Unsupported, s).
Definition out_of_fuel {A} : M A := fun s => (OutOfFuel, s).
Definition lift {A} (r : Res A) : M A := fun s => (r, s).

(** [for x in l: f(x)] *)
Fixpoint for_each {A} (f : A -> M unit) (l : list A) : M unit :=
  match l with
  | [] => mret tt
  | x :: l' => f x;; for_each f l'
  end.

(** [[f(x) for x in l]] *)
Fixpoint eval_list {A B} (f : A -> M B) (l : list A) : M (list B) :=
  match l with
  | [] => mret []
  | x :: l' => y ← f x; ys ← eval_list f l'; mret (y :: ys)
  end.

(** [try: m  except KeyError: h] *)
Definition except_KeyError {A} (m h : M A) : M A := fun s =>
  match m s with
  | (Raise (KeyError _), s') => h s'
  | r => r
  end.

(** [try: m  except LoxReturn as ret: return ret.value], followed by
    [return None] (the handler of [LoxFunction.call]). *)
Definition except_LoxReturn (m : M unit) : M Value := fun s =>
  match m s with
  | (Ok _, s') => (Ok VNone, s')
  | (Raise (LoxReturn v), s') => (Ok v, s')
  | (Raise e, s') => (Raise e, s')
  | (Unsupported, s') => (Unsupported, s')
  | (OutOfFuel, s') => (OutOfFuel, s')
  end.

(** [builtins.print(line)] *)
Definition print (line : string) : M unit := fun s =>
  (Ok tt, set_stdout (stdout s ++ [line]) s).

(** ** Environments ([lox/ctx.py]) *)

(** Modelled from the spec: the class [Ctx] of [lox/ctx.py] is imported by
    [ast.py] and [runtime.py] but is not among the source files.  Its
    constructor and the three operations below follow section 4.1 of the
    specification ([define], [lookup], [assign]) under the names the source
    calls them by: [Ctx(scope={}, parent=p)], [ctx.var_def(name, value)],
    [ctx[name]] and [ctx[name] = value].  A failed lookup is a [KeyError],
    which is what [Var.eval] catches. *)
Definition Ctx_new (p : option Ctx) : M Ctx := fun s =>
  (Ok (MkCtx (length (scopes s)) p), set_scopes (scopes s ++ [∅]) s).

(** Modelled from the spec: [define] inserts or overwrites a binding in this
    environment only and always succeeds.  (An address outside the store
    cannot be produced by [Ctx_new].) *)
Definition var_def (c : Ctx) (k : Key) (v : Value) : M unit := fun s =>
  match scopes s !! scope c with
  | Some d => (Ok tt, set_scopes (<[scope c := <[k := v]> d]> (scopes s)) s)
  | None => (Unsupported, s)
  end.

(** Modelled from the spec: [define] stores the binding in the table of this
    environment, which is the dictionary that the constructor calls of the
    source pass in ([Ctx(scope={}, ...)]).  A dictionary hashes its keys,
    and [Param], a dataclass that defines [__eq__] and is not frozen, has no
    hash: [ctx.var_def(param_name, arg_value)] with a [Param] object for
    [param_name] raises [TypeError] and stores nothing. *)
Definition var_def_param (c : Ctx) (param_name : Param) (arg_value : Value) : M unit :=
  raise (TypeError (UnhashableParam param_name)).

(** The binding of [k] in the table at address [a], if any. *)
Definition defines (sc : list (gmap Key Value)) (a : nat) (k : Key) : option Value :=
  sc !! a ≫= (fun d => d !! k).

(** Modelled from the spec: the chain delegation of [lookup] and [assign],
    as the address of the nearest environment, starting from [c], whose
    table defines [k]. *)
Fixpoint Ctx_find (sc : list (gmap Key Value)) (c : Ctx) (k : Key) : option nat :=
  match c with
  | MkCtx a p =>
      match defines sc a k with
      | Some _ => Some a
      | None => match p with
                | Some c' => Ctx_find sc c' k
                | None => None
                end
      end
  end.

(** Modelled from the spec: [lookup] checks the local bindings, then
    delegates to the parent; it fails when no environment of the chain has
    the name. *)
Definition getitem (c : Ctx) (k : Key) : M Value := fun s =>
  match Ctx_find (scopes s) c k ≫= (fun a => defines (scopes s) a k) with
  | Some v => (Ok v, s)
  | None => (Raise (KeyError k), s)
  end.

(** Modelled from the spec: [assign] overwrites the binding in the nearest
    enclosing environment that already defines the name and fails when none
    does. *)
Definition setitem (c : Ctx) (k : Key) (v : Value) : M unit := fun s =>
  match Ctx_find (scopes s) c k with
  | Some a => (Ok tt, set_scopes (alter (fun d => <[k := v]> d) a (scopes s)) s)
  | None => (Raise (KeyError k), s)
  end.

(** ** Function objects and attribute access *)

Definition new_function (f : LoxFunction) : M nat := fun s =>
  (Ok (length (functions s)), set_functions (functions s ++ [f]) s).

Definition get_function (ref : nat) : M LoxFunction := fun s =>
  match functions s !! ref with
  | Some f => (Ok f, s)
  | None => (Unsupported, s)
  end.

(** Attributes of a function object whose values are not Lox values (the
    fields [params], [body] and [closure]), and the special attributes of
    the host; reading or overwriting them is outside the model.  The
    attribute [call] is none of them: once assigned it is an entry of the
    instance dictionary like any other, which [LoxFunction.__call__] then
    finds in place of the method (see [LoxFunction___call__]). *)
Definition host_field (attr : string) : bool :=
  bool_decide (attr ∈ ["params"; "body"; "closure"]) || String.prefix "__" attr.

Definition store_attr (attr : string) (v : Value) (f : LoxFunction) : LoxFunction :=
  if bool_decide (attr = "name")
  then {| fn_name := v; fn_params := fn_params f; fn_body := fn_body f;
          fn_closure := fn_closure f; fn_attrs := fn_attrs f |}
  else {| fn_name := fn_name f; fn_params := fn_params f; fn_body := fn_body f;
          fn_closure := fn_closure f; fn_attrs := <[attr := v]> (fn_attrs f) |}.

Definition read_attr (attr : string) (f : LoxFunction) : option Value :=
  if bool_decide (attr = "name") then Some (fn_name f) else fn_attrs f !! attr.

(** [setattr(obj, attr, v)]: function objects have an instance dictionary.
    [None], booleans, numbers and strings have none, and every assignment
    to an attribute of theirs raises [AttributeError], but the one to
    [__class__], which raises [TypeError] since no Lox value is a class. *)
Definition py_setattr (obj : Value) (attr : string) (v : Value) : M unit :=
  match obj with
  | VFun ref =>
      if host_field attr then unsupported
      else fun s =>
        match functions s !! ref with
        | Some f => (Ok tt, set_functions (<[ref := store_attr attr v f]> (functions s)) s)
        | None => (Unsupported, s)
        end
  | _ =>
      if bool_decide (attr = "__class__") then raise (TypeError (NotAClass v))
      else raise AttributeError
  end.

(** [getattr(obj, attr)] on a function object: the entry of the instance
    dictionary; without one, [call] is the method of the class, which is
    not a Lox value, and any other name raises [AttributeError].  The
    attributes of host values are not modelled. *)
Definition py_getattr (obj : Value) (attr : string) : M Value :=
  match obj with
  | VFun ref =>
      if host_field attr then unsupported
      else f ← get_function ref;
           match read_attr attr f with
           | Some v => mret v
           | None => if bool_decide (attr = "call") then unsupported
                     else raise AttributeError
           end
  | _ => unsupported
  end.

(** ** The evaluator *)

(** The last four lines of [BinOp.eval]: the integer conversion of the
    result. *)
Definition is_whole_float (v : Value) : bool :=
  match v with
  | VFloat f => PyFloat.is_integer f
  | _ => false
  end.

Definition BinOp_result (left_value right_value result : Value) : Res Value :=
  if is_whole_float left_value && is_whole_float right_value then
    match result with
    | VFloat r => res_bind (Host.int_of_float r) (fun z => Ok (VInt z))
    | _ => Ok result
    end
  else Ok result.

(** [LoxFunction.call], over the evaluator of statements it calls back.
    The elements of [self.params] are the [Param] objects of the
    declaration, so the loop over [zip(self.params, args)] raises at its
    first turn when there is one. *)
Definition LoxFunction_call (eval : Stmt -> Ctx -> M unit)
    (self : LoxFunction) (args : list Value) : M Value :=
  if negb (length args =? length (fn_params self))%nat then
    raise (TypeError (WrongArity (length (fn_params self)) (length args)))
  else
    ctx ← Ctx_new (Some (fn_closure self));
    for_each (fun pa => var_def_param ctx pa.1 pa.2) (zip (fn_params self) args);;
    except_LoxReturn (eval (Block (fn_body self)) ctx).

(** [LoxFunction.__call__]: [self.call(list(args))].  The attribute [call]
    is looked up on the object: an entry of the instance dictionary, stored
    by an attribute assignment, comes before the method of the class.  A
    value that is not a function object cannot be called; another function
    object would receive the Python list of the arguments as its one
    argument, which is not a Lox value. *)
Definition LoxFunction___call__ (eval : Stmt -> Ctx -> M unit)
    (self : LoxFunction) (args : list Value) : M Value :=
  match fn_attrs self !! "call" with
  | None => LoxFunction_call eval self args
  | Some (VFun _) => unsupported
  | Some v => raise (TypeError (NotCallable v))
  end.

(** The [eval] methods.  Every call of a node's [eval] spends one unit of
    fuel; [eval_stmt] discards the value a statement's [eval] returns, as
    every caller in the source does.  [This], [Super] and [Class] define no
    [eval] in [ast.py].  [Function.eval] computes [param_names] without
    using it and hands [self.params], the [Param] objects, to the function
    object. *)
Fixpoint eval_expr (fuel : nat) (e : Expr) (ctx : Ctx) {struct fuel} : M Value :=
  match fuel with
  | O => out_of_fuel
  | S n =>
    match e with
    | BinOp left_ right_ op =>
        left_value ← eval_expr n left_ ctx;
        right_value ← eval_expr n right_ ctx;
        result ← lift (apply_binop op left_value right_value);
        lift (BinOp_result left_value right_value result)
    | Var name =>
        except_KeyError (getitem ctx (KName name)) (raise (NameError name))
    | Literal value => mret value
    | And left_ right_ =>
        left_value ← eval_expr n left_ ctx;
        if negb (is_truthy left_value) then mret left_value
        else eval_expr n right_ ctx
    | Or left_ right_ =>
        left_value ← eval_expr n left_ ctx;
        if is_truthy left_value then mret left_value
        else eval_expr n right_ ctx
    | UnaryOp op value =>
        v ← eval_expr n value ctx;
        lift (apply_unop op v)
    | Call obj params =>
        o ← eval_expr n obj ctx;
        args ← eval_list (fun param => eval_expr n param ctx) params;
        match o with
        | VFun ref =>
            self ← get_function ref;
            LoxFunction___call__ (eval_stmt n) self args
        | _ => raise (TypeError (NotAFunction obj))
        end
    | This | Super => unsupported
    | Assign name value =>
        v ← eval_expr n value ctx;
        v ← lift (auto_convert name v);
        setitem ctx (KName name) v;;
        mret v
    | Getattr value attr =>
        o ← eval_expr n value ctx;
        py_getattr o attr
    | Setattr obj attr value =>
        o ← eval_expr n obj ctx;
        v ← eval_expr n value ctx;
        v ← lift (auto_convert attr v);
        py_setattr o attr v;;
        mret v
    end
  end
with eval_stmt (fuel : nat) (st : Stmt) (ctx : Ctx) {struct fuel} : M unit :=
  match fuel with
  | O => out_of_fuel
  | S n =>
    match st with
    | ExprStmt e => eval_expr n e ctx;; mret tt
    | DoWhileStmt body condition =>
        eval_stmt n body ctx;;
        c ← eval_expr n condition ctx;
        if negb (is_truthy c) then mret tt
        else eval_stmt n (DoWhileStmt body condition) ctx
    | Print expr =>
        value ← eval_expr n expr ctx;
        line ← lift (lox_str value);
        print line
    | Return value =>
        return_value ← match value with
                       | Some e => eval_expr n e ctx
                       | None => mret VNone
                       end;
        raise (LoxReturn return_value)
    | VarDef name value _ =>
        val ← match value with
              | Some e => eval_expr n e ctx
              | None => mret VNone
              end;
        val ← lift (auto_convert name val);
        var_def ctx (KName name) val
    | If cond then_branch else_branch =>
        c ← eval_expr n cond ctx;
        if is_truthy c then eval_stmt n then_branch ctx
        else match else_branch with
             | Some b => eval_stmt n b ctx
             | None => mret tt
             end
    | While expr stmt =>
        c ← eval_expr n expr ctx;
        if is_truthy c then
          eval_stmt n stmt ctx;;
          eval_stmt n (While expr stmt) ctx
        else mret tt
    | Block stmts =>
        new_ctx ← Ctx_new (Some ctx);
        for_each (fun stmt => eval_stmt n stmt new_ctx) stmts
    | Function name params body =>
        ref ← new_function {| fn_name := VStr name; fn_params := params;
                              fn_body := body; fn_closure := ctx;
                              fn_attrs := ∅ |};
        var_def ctx (KName name) (VFun ref)
    | Class_ => unsupported
    end
  end.

(** [LoxFunction.call] of the function object at [ref]. *)
Definition call (fuel : nat) (ref : nat) (args : list Value) : M Value :=
  self ← get_function ref;
  LoxFunction_call (eval_stmt fuel) self args.

(** [Program.eval] *)
Definition eval_program (fuel : nat) (p : Program) (ctx : Ctx) : M unit :=
  for_each (fun stmt => eval_stmt fuel stmt ctx) (stmts p).


(** ** Tree construction ([transformer.py]) *)

(** What a rule method receives for an optional clause that is present: a
    node built by another rule, or a raw [lark.Token]. *)
Inductive Child := CNode (node : Stmt) | CToken (text : string).

(** The global namespace of the module [transformer.py]: its imports
    ([Callable], [Transformer], [v_args], [op]), the public names of
    [ast.py] brought in by [from .ast import *] (that module's imports,
    functions and classes; it declares no [__all__]), and the module's own
    definitions. *)
Definition transformer_globals : list string :=
  ["Callable"; "Transformer"; "v_args"; "op";
   "ABC"; "dataclass"; "Ctx"; "Node"; "LoxReturn"; "LoxFunction";
   "Value"; "is_implicit_int"; "auto_convert"; "is_truthy"; "lox_str";
   "Expr"; "Stmt"; "Program"; "DoWhileStmt"; "BinOp"; "Var"; "Literal";
   "And"; "Or"; "UnaryOp"; "Call"; "This"; "Super"; "Assign"; "Getattr";
   "Setattr"; "Print"; "Return"; "VarDef"; "If"; "While"; "Block"; "Param";
   "Function"; "Class";
   "op_handler"; "LoxTransformer"].

(** The builtins that [transformer.py] refers to. *)
Definition builtins_used : list string :=
  ["isinstance"; "list"; "len"; "str"; "float"].

(** Resolution of a free name inside a method of the module: the module's
    globals, then the builtins; a [NameError] otherwise. *)
Definition global_name (name : string) : Res unit :=
  if bool_decide (name ∈ transformer_globals) || bool_decide (name ∈ builtins_used)
  then Ok tt
  else Raise (NameError name).

(** [LoxTransformer.build_for].  In the last test, [init is not None] is
    evaluated first; only when it holds is [isinstance(init, Token)]
    evaluated, which resolves the name [Token]. *)
Definition build_for (init : option Child) (cond incr : option Expr) (body : Stmt)
    : Res Stmt :=
  let body := match incr with
              | Some i => Block [body; ExprStmt i]
              | None => body
              end in
  let cond := match cond with
              | Some c => c
              | None => Literal (VBool true)
              end in
  let while_loop := While cond body in
  match init with
  | Some i =>
      res_bind (global_name "Token") (fun _ =>
        match i with
        | CNode node => Ok (Block [node; while_loop])
        | CToken _ => Ok (Block [while_loop])
        end)
  | None => Ok (Block [while_loop])
  end.

(** The desugaring in the words of the specification (section 4.3): wrap
    the body with the increment, default the condition to [true], build the
    while node, and put a real initializer first. *)
Definition build_for_spec (init : option Child) (cond incr : option Expr)
    (body : Stmt) : Stmt :=
  let body := match incr with
              | Some i => Block [body; ExprStmt i]
              | None => body
              end in
  let cond := match cond with
              | Some c => c
              | None => Literal (VBool true)
              end in
  match init with
  | Some (CNode node) => Block [node; While cond body]
  | _ => Block [While cond body]
  end.

(** The conversion rule of section 4.2 of the specification, in its words:
    both operands are numbers that are whole-valued and the raw result is a
    whole-valued number. *)
Definition whole_valued (v : Value) : bool :=
  match v with
  | VInt _ => true
  | VFloat f => PyFloat.is_integer f
  | _ => false
  end.

Definition BinOp_result_spec (left_value right_value result : Value) : Value :=
  if whole_valued left_value && whole_valued right_value && whole_valued result
  then match result with
       | VFloat r => VInt (PyFloat.trunc r)
       | _ => result
       end
  else result.

(** ** Predicates of the statements *)



(** [m'] ends as [m] does wherever [m] does not run out of fuel. *)
Definition extends {A} (m m' : M A) : Prop :=
  forall s r s', m s = (r, s') -> r <> OutOfFuel -> m' s = (r, s').

(** ** Sample inputs *)

(** A store with an empty root environment and no output. *)
Definition empty_state : State :=
  {| scopes := [∅]; functions := []; stdout := [] |}.

Definition root : Ctx := MkCtx 0 None.

(** The literal node the transformer builds for a [NUMBER] token. *)
Definition number (z : Z) : Expr := Literal (VFloat (PyFloat.of_Z z)).

(** The clauses of [for (i = 0; i < 3; i = i + 1) print i;]. *)
Definition for_init : Child := CNode (ExprStmt (Assign "i" (number 0))).
Definition for_cond : Expr := BinOp (Var "i") (number 3) op.lt.
Definition for_incr : Expr := Assign "i" (BinOp (Var "i") (number 1) op.add).
Definition for_body : Stmt := Print (Var "i").

(** [fun f() { var b = 7; }  f();] *)
Definition call_program : Program :=
  {| stmts := [Function "f" [] [VarDef "b" (Some (number 7)) None];
               ExprStmt (Call (Var "f") [])] |}.

(** The store after [fun f() { var b = 7; }] at top level. *)
Definition state_with_local : State :=
  {| scopes := [{[ KName "f" := VFun 0 ]}];
     functions := [{| fn_name := VStr "f"; fn_params := [];
                      fn_body := [VarDef "b" (Some (number 7)) None];
                      fn_closure := root; fn_attrs := ∅ |}];
     stdout := [] |}.

Definition param_a : Param := {| param_name := "a"; param_type_annotation := None |}.


(** The string of the one character superscript two (code point 178). *)
Definition superscript_two : string := String (ascii_of_nat 178) EmptyString.

(** The float that the host writes [inf]. *)
Definition infinity : float := S754_infinity false.


(** The store after [fun f(a) { var b = 7; }] at top level. *)
Definition state_with_f : State :=
  {| scopes := [{[ KName "f" := VFun 0 ]}];
     functions := [{| fn_name := VStr "f"; fn_params := [param_a];
                      fn_body := [VarDef "b" (Some (number 7)) None];
                      fn_closure := root; fn_attrs := ∅ |}];
     stdout := [] |}.



(** ** Further functions of [runtime.py] and [transformer.py] *)

(** [runtime.truthy]: [value is None or value is False]. *)
Definition truthy (value : Value) : bool :=
  match value with
  | VNone => false
  | VBool false => false
  | _ => true
  end.

(** The character [chr(34)]. *)
Definition quote : string := String (ascii_of_nat 34) EmptyString.

(** [runtime.show]: the host's [str(value)]. *)
Definition show (value : Value) : Res string := Host.py_str value.

(** The character [c] occurs in [s]. *)
Fixpoint occurs (c : ascii) (s : string) : bool :=
  match s with
  | EmptyString => false
  | String d s' => Ascii.eqb c d || occurs c s'
  end.

(** [runtime.show_repr] *)
Definition show_repr (value : Value) : Res string :=
  match value with
  | VStr s => Ok (quote +:+ s +:+ quote)
  | _ => show value
  end.

(** [runtime.print]: [builtins.print(show(value))]. *)
Definition runtime_print (value : Value) : M unit :=
  line ← lift (show value);
  print line.

(** [s[:-1]] *)
Fixpoint drop_last (s : string) : string :=
  match s with
  | EmptyString => EmptyString
  | String c rest =>
      match rest with
      | EmptyString => EmptyString
      | _ => String c (drop_last rest)
      end
  end.

(** [s[1:-1]] *)
Definition slice_1_m1 (s : string) : string :=
  match s with
  | EmptyString => EmptyString
  | String _ rest => drop_last rest
  end.

(** [LoxTransformer.STRING]: [Literal(str(token)[1:-1])]. *)
Definition STRING (token : string) : Expr := Literal (VStr (slice_1_m1 token)).

(** [LoxTransformer.BOOL]: [Literal(token == "true")]. *)
Definition BOOL (token : string) : Expr := Literal (VBool (bool_decide (token = "true"))).

(** [LoxTransformer.NIL] *)
Definition NIL : Expr := Literal VNone.

(** The operators bound by [add], [sub], [mul] and [div] in the transformer,
    and those bound by the comparison and equality rules. *)
Definition is_arithmetic (o : op.BinOperator) : bool :=
  match o with
  | op.add | op.sub | op.mul | op.floordiv => true
  | _ => false
  end.

Definition is_comparison (o : op.BinOperator) : bool := negb (is_arithmetic o).

(** A number equal to zero: [0], [0.0], [-0.0] and [False]. *)
Definition is_zero_number (v : Value) : bool :=
  match v with
  | VInt z => z =? 0
  | VFloat f => PyFloat.is_zero f
  | VBool b => negb b
  | _ => false
  end.

(** ** Relations between stores *)

(** From [s] to [s'] nothing is taken away: no environment, no function
    object and no line of output; and the tables at the addresses below [L]
    bind the same names. *)
Definition store_grows (L : nat) (s s' : State) : Prop :=
  (length (scopes s) <= length (scopes s'))%nat /\
  (length (functions s) <= length (functions s'))%nat /\
  stdout s `prefix_of` stdout s' /\
  forall a, (a < L)%nat -> dom <$> scopes s' !! a = dom <$> scopes s !! a.

(** Started in a store with at least [L] environments, [m] ends in a store
    related to it by [store_grows L], with a value that satisfies [Q]. *)
Definition keeps (L : nat) {A} (m : M A) (Q : A -> Prop) : Prop :=
  forall s r s', (L <= length (scopes s))%nat -> m s = (r, s') ->
    store_grows L s s' /\ forall a, r = Ok a -> Q a.


(** The store after [var x = 1; fun f() { return x; } x = 2;] at top level. *)
Definition state_after_reassignment : State :=
  {| scopes := [{[ KName "x" := VFloat (PyFloat.of_Z 2);
                   KName "f" := VFun 0 ]}];
     functions := [{| fn_name := VStr "f"; fn_params := [];
                      fn_body := [Return (Some (Var "x"))];
                      fn_closure := root; fn_attrs := ∅ |}];
     stdout := [] |}.

(** * Properties *)

(** ** The monad *)

Section Monad.
Context {A B : Type}.
Implicit Types (m : M A) (k : A -> M B) (s : State).

Lemma mbind_Ok m k s a s' :
  m s = (Ok a, s') -> (m ≫= k) s = k a s'.
Proof. intros H. unfold mbind, M_bind. now rewrite H. Qed.

Lemma mbind_Raise m k s e s' :
  m s = (Raise e, s') -> (m ≫= k) s = (Raise e, s').
Proof. intros H. unfold mbind, M_bind. now rewrite H. Qed.

Lemma mbind_inv_Ok m k s b s2 :
  (m ≫= k) s = (Ok b, s2) ->
  exists a s1, m s = (Ok a, s1) /\ k a s1 = (Ok b, s2).
Proof.
  unfold mbind, M_bind. destruct (m s) as [[a| | |] s1]; try discriminate.
  intros H. now exists a, s1.
Qed.
End Monad.

(** Unfolding of the monad's operations in a goal. *)
Ltac unfold_monad :=
  unfold mbind, M_bind, mret, M_ret, lift, raise, unsupported, out_of_fuel.

(** A computation step whose result is known from a hypothesis. *)
Ltac step_with H := unfold_monad; rewrite H; cbn beta iota.

(** ** Fuel

    An evaluation that ends without running out of fuel ends in the same way
    with any larger amount of fuel. *)

Section Extends.
Context {A B : Type}.

Lemma extends_refl (m : M A) : extends m m.
Proof. now intros s r s' H _. Qed.

Lemma extends_trans (m1 m2 m3 : M A) :
  extends m1 m2 -> extends m2 m3 -> extends m1 m3.
Proof. intros H12 H23 s r s' H Hr. apply H23, Hr. now apply H12. Qed.

Lemma extends_bind (m m' : M A) (k k' : A -> M B) :
  extends m m' -> (forall a, extends (k a) (k' a)) ->
  extends (m ≫= k) (m' ≫= k').
Proof.
  intros Hm Hk s r s' H Hr. unfold mbind, M_bind in *.
  destruct (m s) as [[a|e| |] s1] eqn:E.
  - rewrite (Hm s (Ok a) s1 E) by discriminate. now apply Hk.
  - rewrite (Hm s (Raise e) s1 E) by discriminate. exact H.
  - rewrite (Hm s Unsupported s1 E) by discriminate. exact H.
  - injection H as <- _. now destruct Hr.
Qed.
End Extends.

Lemma extends_for_each {A} (f f' : A -> M unit) l :
  (forall x, extends (f x) (f' x)) -> extends (for_each f l) (for_each f' l).
Proof.
  intros Hf. induction l as [|x l IH]; cbn [for_each].
  - apply extends_refl.
  - apply extends_bind; [apply Hf|]. intros _. apply IH.
Qed.

Lemma extends_eval_list {A B} (f f' : A -> M B) l :
  (forall x, extends (f x) (f' x)) -> extends (eval_list f l) (eval_list f' l).
Proof.
  intros Hf. induction l as [|x l IH]; cbn [eval_list].
  - apply extends_refl.
  - apply extends_bind; [apply Hf|]. intros y.
    apply extends_bind; [apply IH|]. intros ys. apply extends_refl.
Qed.

Lemma extends_except_LoxReturn (m m' : M unit) :
  extends m m' -> extends (except_LoxReturn m) (except_LoxReturn m').
Proof.
  intros Hm s r s' H Hr. unfold except_LoxReturn in *.
  destruct (m s) as [[a|e| |] s1] eqn:E.
  - now rewrite (Hm s (Ok a) s1 E) by discriminate.
  - now rewrite (Hm s (Raise e) s1 E) by discriminate.
  - now rewrite (Hm s Unsupported s1 E) by discriminate.
  - injection H as <- _. now destruct Hr.
Qed.

Lemma extends_LoxFunction_call (eval eval' : Stmt -> Ctx -> M unit) self args :
  (forall st ctx, extends (eval st ctx) (eval' st ctx)) ->
  extends (LoxFunction_call eval self args) (LoxFunction_call eval' self args).
Proof.
  intros He. unfold LoxFunction_call. destruct (negb _); [apply extends_refl|].
  apply extends_bind; [apply extends_refl|]. intros ctx.
  apply extends_bind; [apply extends_refl|]. intros _.
  apply extends_except_LoxReturn, He.
Qed.

Lemma extends_LoxFunction___call__ (eval eval' : Stmt -> Ctx -> M unit) self args :
  (forall st ctx, extends (eval st ctx) (eval' st ctx)) ->
  extends (LoxFunction___call__ eval self args) (LoxFunction___call__ eval' self args).
Proof.
  intros He. unfold LoxFunction___call__.
  destruct (fn_attrs self !! "call") as [[]|]; try apply extends_refl.
  now apply extends_LoxFunction_call.
Qed.

(** One step of the proof that [extends] holds between two amounts of fuel. *)
Ltac extends_step IHe IHs :=
  first
    [ apply IHe
    | apply IHs
    | apply extends_bind; [|intros ?]
    | apply extends_eval_list; intros ?
    | apply extends_for_each; intros ?
    | apply extends_LoxFunction___call__; intros ? ?
    | match goal with
      | |- extends (if ?c then _ else _) _ => destruct c
      | |- extends (match ?x with _ => _ end) _ => destruct x
      end
    | apply extends_refl ].

Lemma fuel_step n :
  (forall e ctx, extends (eval_expr n e ctx) (eval_expr (S n) e ctx)) /\
  (forall st ctx, extends (eval_stmt n st ctx) (eval_stmt (S n) st ctx)).
Proof.
  induction n as [|n [IHe IHs]].
  - split; intros x ctx s r s' [= <- _] Hr; now destruct Hr.
  - split.
    + intros e ctx. destruct e; cbn [eval_expr]; repeat extends_step IHe IHs.
    + intros st ctx. destruct st; cbn [eval_stmt]; repeat extends_step IHe IHs.
Qed.

Lemma fuel_monotone n m :
  (n <= m)%nat ->
  (forall e ctx, extends (eval_expr n e ctx) (eval_expr m e ctx)) /\
  (forall st ctx, extends (eval_stmt n st ctx) (eval_stmt m st ctx)).
Proof.
  induction 1 as [|m _ [IHe IHs]].
  - split; intros; apply extends_refl.
  - split; intros x ctx.
    + eapply extends_trans; [apply IHe | apply fuel_step].
    + eapply extends_trans; [apply IHs | apply fuel_step].
Qed.

(** ** Unary negation *)

(** C9: logical negation is the host's [not] applied to the operand's value,
    not the complement of [is_truthy]: whenever the operand evaluates to a
    value, the node yields the negated host truth value of it, and for the
    number zero (as a float or as an integer) and the empty string that is
    [true] although [is_truthy] is [true] for them as well. *)
Theorem UnaryOp_not_is_host_negation :
  forall (n : nat) (value : Expr) (ctx : Ctx) (s s' : State) (v : Value),
    eval_expr n value ctx s = (Ok v, s') ->
    eval_expr (S n) (UnaryOp op.not_ value) ctx s
      = (Ok (VBool (negb (Host.py_bool v))), s')
    /\ (v = VFloat (PyFloat.of_Z 0) \/ v = VInt 0 \/ v = VStr "" ->
        negb (Host.py_bool v) = true /\ is_truthy v = true).
Proof.
  intros n value ctx s s' v Hv. split.
  - cbn [eval_expr]. step_with Hv. reflexivity.
  - intros [-> | [-> | ->]]; split; reflexivity.
Qed.

Lemma UnaryOp_not_is_host_negation_witness :
  eval_expr 2 (UnaryOp op.not_ (Literal (VStr ""))) (MkCtx 0 None)
      {| scopes := [∅]; functions := []; stdout := [] |}
    = (Ok (VBool true), {| scopes := [∅]; functions := []; stdout := [] |})
  /\ is_truthy (VStr "") = true.
Proof.
  destruct (UnaryOp_not_is_host_negation 1 (Literal (VStr "")) (MkCtx 0 None)
              {| scopes := [∅]; functions := []; stdout := [] |}
              {| scopes := [∅]; functions := []; stdout := [] |}
              (VStr "") eq_refl) as [He Ht].
  split; [exact He | exact (proj2 (Ht (or_intror (or_intror eq_refl))))].
Defined.

(** ** Short-circuit operators *)

(** C5: once the left operand has evaluated to [v], leaving the store [s'],
    [And] yields [v] in that very store when [v] is falsy, whatever the right
    operand is, and otherwise is the evaluation of the right operand from
    [s']; [Or] yields [v] in [s'] when [v] is truthy and otherwise is the
    evaluation of the right operand from [s']. *)
Theorem And_Or_short_circuit :
  forall (n : nat) (left_ right_ : Expr) (ctx : Ctx) (s s' : State) (v : Value),
    eval_expr n left_ ctx s = (Ok v, s') ->
    (is_truthy v = false ->
       eval_expr (S n) (And left_ right_) ctx s = (Ok v, s')) /\
    (is_truthy v = true ->
       eval_expr (S n) (And left_ right_) ctx s = eval_expr n right_ ctx s') /\
    (is_truthy v = true ->
       eval_expr (S n) (Or left_ right_) ctx s = (Ok v, s')) /\
    (is_truthy v = false ->
       eval_expr (S n) (Or left_ right_) ctx s = eval_expr n right_ ctx s').
Proof.
  intros n left_ right_ ctx s s' v Hl.
  repeat split; intros Ht; cbn [eval_expr];
    rewrite (mbind_Ok _ _ _ _ _ Hl), Ht; reflexivity.
Qed.

(** The right operand [Var "undefined"] would raise if it were evaluated. *)
Lemma And_Or_short_circuit_witness :
  let s0 := {| scopes := [∅]; functions := []; stdout := [] |} in
  eval_expr 2 (And (Literal (VBool false)) (Var "undefined")) (MkCtx 0 None) s0
    = (Ok (VBool false), s0) /\
  eval_expr 2 (Or (Literal (VBool true)) (Var "undefined")) (MkCtx 0 None) s0
    = (Ok (VBool true), s0).
Proof.
  intros s0. split.
  - exact (proj1 (And_Or_short_circuit 1 (Literal (VBool false)) (Var "undefined")
                    (MkCtx 0 None) s0 s0 (VBool false) eq_refl) eq_refl).
  - exact (proj1 (proj2 (proj2 (And_Or_short_circuit 1 (Literal (VBool true))
                    (Var "undefined") (MkCtx 0 None) s0 s0 (VBool true) eq_refl)))
             eq_refl).
Defined.

(** ** Loops *)

(** C8: a do-while statement starts with its body and tests the condition
    after it: when the body completes and the condition then evaluates to a
    falsy value, the statement is over, the store being the one left by one
    execution of the body followed by one evaluation of the condition; when
    the condition is truthy the statement starts over.  A while statement
    tests the condition first: when it is falsy the statement is over in the
    store left by the condition, the body not having run; when it is truthy
    the body runs and the statement starts over. *)
Theorem DoWhile_once_While_zero :
  forall (n : nat) (body : Stmt) (condition : Expr) (ctx : Ctx)
         (s s1 s2 : State) (c : Value),
    (eval_stmt n body ctx s = (Ok tt, s1) ->
     eval_expr n condition ctx s1 = (Ok c, s2) ->
     eval_stmt (S n) (DoWhileStmt body condition) ctx s
       = if is_truthy c then eval_stmt n (DoWhileStmt body condition) ctx s2
         else (Ok tt, s2)) /\
    (eval_expr n condition ctx s = (Ok c, s1) ->
     eval_stmt (S n) (While condition body) ctx s
       = if is_truthy c
         then (eval_stmt n body ctx;; eval_stmt n (While condition body) ctx) s1
         else (Ok tt, s1)).
Proof.
  intros n body condition ctx s s1 s2 c. split.
  - intros Hb Hc. cbn [eval_stmt].
    rewrite (mbind_Ok _ _ _ _ _ Hb), (mbind_Ok _ _ _ _ _ Hc).
    now destruct (is_truthy c).
  - intros Hc. cbn [eval_stmt]. rewrite (mbind_Ok _ _ _ _ _ Hc).
    now destruct (is_truthy c).
Qed.

(** With a body that prints and the condition [false], the output shows the
    body's one execution under do-while and none under while. *)
Lemma DoWhile_once_While_zero_witness :
  let s0 := {| scopes := [∅]; functions := []; stdout := [] |} in
  let body := Print (Literal (VStr "x")) in
  let condition := Literal (VBool false) in
  eval_stmt 3 (DoWhileStmt body condition) (MkCtx 0 None) s0
    = (Ok tt, {| scopes := [∅]; functions := []; stdout := ["x"] |}) /\
  eval_stmt 3 (While condition body) (MkCtx 0 None) s0 = (Ok tt, s0).
Proof.
  intros s0 body condition. split.
  - exact (proj1 (DoWhile_once_While_zero 2 body condition (MkCtx 0 None) s0
                    {| scopes := [∅]; functions := []; stdout := ["x"] |}
                    {| scopes := [∅]; functions := []; stdout := ["x"] |}
                    (VBool false)) eq_refl eq_refl).
  - exact (proj2 (DoWhile_once_While_zero 2 body condition (MkCtx 0 None) s0
                    s0 s0 (VBool false)) eq_refl).
Defined.

(** ** Environments *)

Lemma Ctx_induction (P : Ctx -> Prop) :
  (forall a, P (MkCtx a None)) ->
  (forall a p, P p -> P (MkCtx a (Some p))) ->
  forall c, P c.
Proof.
  intros Hroot Hchild. fix IH 1. intros [a [p|]].
  - apply Hchild, IH.
  - apply Hroot.
Qed.

Lemma Ctx_find_defines sc c k a :
  Ctx_find sc c k = Some a -> is_Some (defines sc a k).
Proof.
  induction c as [a0|a0 p IH] using Ctx_induction; cbn [Ctx_find].
  - destruct (defines sc a0 k) eqn:E; [|discriminate].
    intros [= <-]. rewrite E. eauto.
  - destruct (defines sc a0 k) eqn:E; [|exact IH].
    intros [= <-]. rewrite E. eauto.
Qed.

Lemma Ctx_find_here sc a p k :
  is_Some (defines sc a k) -> Ctx_find sc (MkCtx a p) k = Some a.
Proof.
  intros [v Hv]. cbn [Ctx_find]. now rewrite Hv.
Qed.

Lemma defines_alter_eq sc a k v :
  is_Some (sc !! a) -> defines (alter (fun d => <[k := v]> d) a sc) a k = Some v.
Proof.
  intros [d Hd]. unfold defines. rewrite list_lookup_alter_eq, Hd. cbn.
  apply lookup_insert_eq.
Qed.

Lemma defines_alter_ne sc a a' k v :
  a <> a' -> defines (alter (fun d => <[k := v]> d) a sc) a' k = defines sc a' k.
Proof. intros Hne. unfold defines. now rewrite list_lookup_alter_ne. Qed.

(** Assignment does not move the binding it overwrites. *)
Lemma Ctx_find_alter sc c k a v :
  Ctx_find sc c k = Some a ->
  Ctx_find (alter (fun d => <[k := v]> d) a sc) c k = Some a.
Proof.
  induction c as [a0|a0 p IH] using Ctx_induction; cbn [Ctx_find];
    destruct (defines sc a0 k) eqn:E.
  - intros [= <-]. rewrite defines_alter_eq; [done|].
    unfold defines in E. destruct (sc !! a0); [eauto|discriminate].
  - discriminate.
  - intros [= <-]. rewrite defines_alter_eq; [done|].
    unfold defines in E. destruct (sc !! a0); [eauto|discriminate].
  - intros Hf. assert (a <> a0) as Hne.
    { intros ->. apply Ctx_find_defines in Hf. rewrite E in Hf. now destruct Hf. }
    rewrite defines_alter_ne, E by done. now apply IH.
Qed.

(** A name reads back the value just defined for it. *)
Lemma getitem_var_def c k v s :
  is_Some (scopes s !! scope c) ->
  exists s', var_def c k v s = (Ok tt, s') /\ getitem c k s' = (Ok v, s')
             /\ functions s' = functions s /\ stdout s' = stdout s.
Proof.
  intros [d Hd]. unfold var_def. rewrite Hd. eexists. split; [reflexivity|].
  split; [|done]. unfold getitem. cbn [scopes set_scopes].
  assert (defines (<[scope c := <[k := v]> d]> (scopes s)) (scope c) k = Some v) as Hdef.
  { unfold defines. rewrite list_lookup_insert_eq by (eapply lookup_lt_Some; eauto).
    cbn. apply lookup_insert_eq. }
  destruct c as [a p]. cbn [scope] in *. rewrite Ctx_find_here by (rewrite Hdef; eauto).
  cbn. now rewrite Hdef.
Qed.

(** A name reads back the value just assigned to it. *)
Lemma getitem_setitem c k v s :
  is_Some (Ctx_find (scopes s) c k) ->
  exists s', setitem c k v s = (Ok tt, s') /\ getitem c k s' = (Ok v, s')
             /\ functions s' = functions s /\ stdout s' = stdout s.
Proof.
  intros [a Ha]. unfold setitem. rewrite Ha. eexists. split; [reflexivity|].
  split; [|done]. unfold getitem. cbn [scopes set_scopes].
  rewrite (Ctx_find_alter _ _ _ _ v Ha). cbn.
  rewrite defines_alter_eq; [done|].
  apply Ctx_find_defines in Ha as [w Hw]. unfold defines in Hw.
  destruct (scopes s !! a); [eauto|discriminate].
Qed.

(** [Var.eval] returns what the environment holds. *)
Lemma Var_eval_getitem n name ctx s v s' :
  getitem ctx (KName name) s = (Ok v, s') ->
  eval_expr (S n) (Var name) ctx s = (Ok v, s').
Proof. intros H. cbn [eval_expr]. unfold except_KeyError. now rewrite H. Qed.

(** ** Auto-coercion at the store sites *)

Lemma int_of_float_finite f :
  PyFloat.is_finite f = true -> Host.int_of_float f = Ok (PyFloat.trunc f).
Proof. now destruct f. Qed.

Lemma auto_convert_passes name v :
  match v with VStr _ | VFloat _ | VBool _ => False | _ => True end ->
  auto_convert name v = Ok v.
Proof. unfold auto_convert. now destruct (is_implicit_int name), v. Qed.

(** [VarDef.eval] defines the name with the converted value. *)
Lemma VarDef_stores n name e ty ctx s v s1 v' :
  eval_expr n e ctx s = (Ok v, s1) ->
  auto_convert name v = Ok v' ->
  is_Some (scopes s1 !! scope ctx) ->
  exists s2, eval_stmt (S n) (VarDef name (Some e) ty) ctx s = (Ok tt, s2)
             /\ getitem ctx (KName name) s2 = (Ok v', s2).
Proof.
  intros He Hc Hs.
  destruct (getitem_var_def ctx (KName name) v' s1 Hs) as (s2 & Hd & Hg & _).
  exists s2. split; [|exact Hg].
  cbn [eval_stmt]. rewrite (mbind_Ok _ _ _ _ _ He).
  unfold lift. erewrite mbind_Ok by (rewrite Hc; reflexivity). exact Hd.
Qed.

(** [Assign.eval] overwrites the binding with the converted value, which is
    also the value of the expression. *)
Lemma Assign_stores n name e ctx s v s1 v' :
  eval_expr n e ctx s = (Ok v, s1) ->
  auto_convert name v = Ok v' ->
  is_Some (Ctx_find (scopes s1) ctx (KName name)) ->
  exists s2, eval_expr (S n) (Assign name e) ctx s = (Ok v', s2)
             /\ getitem ctx (KName name) s2 = (Ok v', s2).
Proof.
  intros He Hc Hs.
  destruct (getitem_setitem ctx (KName name) v' s1 Hs) as (s2 & Hd & Hg & _).
  exists s2. split; [|exact Hg].
  cbn [eval_expr]. rewrite (mbind_Ok _ _ _ _ _ He).
  unfold lift. erewrite mbind_Ok by (rewrite Hc; reflexivity).
  erewrite mbind_Ok by exact Hd. reflexivity.
Qed.

Lemma read_store_attr attr v f : read_attr attr (store_attr attr v f) = Some v.
Proof.
  unfold read_attr, store_attr. case_bool_decide; cbn; [done|].
  apply lookup_insert_eq.
Qed.

(** [Setattr.eval] stores the converted value in the object, and it is the
    value of the expression. *)
Lemma Setattr_stores n obj attr e ctx s ref s1 v s2 v' f :
  eval_expr n obj ctx s = (Ok (VFun ref), s1) ->
  eval_expr n e ctx s1 = (Ok v, s2) ->
  auto_convert attr v = Ok v' ->
  host_field attr = false ->
  functions s2 !! ref = Some f ->
  exists s3, eval_expr (S n) (Setattr obj attr e) ctx s = (Ok v', s3)
             /\ functions s3 !! ref ≫= read_attr attr = Some v'.
Proof.
  intros Ho He Hc Hh Hf. eexists. split.
  - cbn [eval_expr]. rewrite (mbind_Ok _ _ _ _ _ Ho), (mbind_Ok _ _ _ _ _ He).
    unfold lift. erewrite mbind_Ok by (rewrite Hc; reflexivity).
    unfold py_setattr. rewrite Hh.
    erewrite mbind_Ok by (rewrite Hf; reflexivity). reflexivity.
  - cbn [functions set_functions].
    rewrite list_lookup_insert_eq by (eapply lookup_lt_Some; eauto).
    cbn. apply read_store_attr.
Qed.

(** A name that begins with one of the six letters is none of the
    attributes left out of the model. *)
Lemma implicit_int_not_host_field name :
  is_implicit_int name = true -> host_field name = false.
Proof.
  intros Hn. unfold host_field. apply orb_false_intro.
  - apply bool_decide_eq_false. intros Hin. rewrite !elem_of_cons in Hin.
    destruct Hin as [->|[->|[->|Hin]]]; try discriminate.
    now apply elem_of_nil in Hin.
  - destruct name as [|c name]; [discriminate|]. cbn in Hn |- *.
    destruct (Ascii.eqb_spec c "_"%char) as [->|Hc]; [discriminate|].
    destruct c as [[] [] [] [] [] [] [] []]; try reflexivity; now destruct Hc.
Qed.

Lemma all_digits_all_digit_chars d :
  Host.all_digits d = true -> Host.all_digit_chars d = true.
Proof.
  induction d as [|c d IH]; cbn; [reflexivity|].
  intros [Hc Hd]%andb_prop. unfold Host.is_digit_char. now rewrite Hc, IH.
Qed.

Lemma isdigit_of_all_digits d :
  d <> "" -> Host.all_digits d = true -> Host.isdigit d = Ok true.
Proof.
  intros Hne Hd. unfold Host.isdigit. destruct d; [done|].
  now rewrite all_digits_all_digit_chars.
Qed.

(** When the conversion raises, the declaration and the assignment raise
    the same exception, in the store that the evaluation of the value left:
    nothing is stored. *)
Lemma VarDef_Assign_raise n name e ty ctx s v s1 exn :
  eval_expr n e ctx s = (Ok v, s1) ->
  auto_convert name v = Raise exn ->
  eval_stmt (S n) (VarDef name (Some e) ty) ctx s = (Raise exn, s1) /\
  eval_expr (S n) (Assign name e) ctx s = (Raise exn, s1).
Proof.
  intros He Hc. split.
  - cbn [eval_stmt]. rewrite (mbind_Ok _ _ _ _ _ He).
    unfold lift. erewrite mbind_Raise by (rewrite Hc; reflexivity). reflexivity.
  - cbn [eval_expr]. rewrite (mbind_Ok _ _ _ _ _ He).
    unfold lift. erewrite mbind_Raise by (rewrite Hc; reflexivity). reflexivity.
Qed.

Lemma Setattr_raise n obj attr e ctx s o s1 v s2 exn :
  eval_expr n obj ctx s = (Ok o, s1) ->
  eval_expr n e ctx s1 = (Ok v, s2) ->
  auto_convert attr v = Raise exn ->
  eval_expr (S n) (Setattr obj attr e) ctx s = (Raise exn, s2).
Proof.
  intros Ho He Hc. cbn [eval_expr].
  rewrite (mbind_Ok _ _ _ _ _ Ho), (mbind_Ok _ _ _ _ _ He).
  unfold lift. erewrite mbind_Raise by (rewrite Hc; reflexivity). reflexivity.
Qed.

(** C4 (as amended): for a name that begins with one of the letters i, j,
    k, l, m, n, [auto_convert] turns a non-empty string of decimal digits,
    no longer than the host's bound on the text of an integer, into the
    integer it writes, a finite float into its integer part, and a boolean
    into 0 or 1, and returns unchanged a string that [isdigit] rejects; it
    raises [OverflowError] on an infinite float, and [ValueError] on a NaN,
    on a string that [isdigit] accepts and that holds a digit that is not
    decimal, and on a string of decimal digits longer than the bound.  A
    variable declaration, a variable assignment and an attribute assignment
    each store the value that [auto_convert] returns for the target name,
    so that it is what the name or the attribute then holds; when
    [auto_convert] raises, each of them raises the same exception and
    stores nothing. *)
Theorem stores_apply_auto_convert :
  forall (name : string), is_implicit_int name = true ->
    (forall d, d <> "" -> Host.all_digits d = true ->
               (String.length d <= Host.max_str_digits)%nat ->
               auto_convert name (VStr d) = Ok (VInt (Host.int_of_digits 0 d))) /\
    (forall f, PyFloat.is_finite f = true ->
               auto_convert name (VFloat f) = Ok (VInt (PyFloat.trunc f))) /\
    (forall b, auto_convert name (VBool b) = Ok (VInt (Z.b2z b))) /\
    (forall t, Host.isdigit t = Ok false ->
               auto_convert name (VStr t) = Ok (VStr t)) /\
    (forall sg, auto_convert name (VFloat (S754_infinity sg)) = Raise OverflowError) /\
    auto_convert name (VFloat S754_nan) = Raise ValueError /\
    (forall t, Host.isdigit t = Ok true -> Host.all_digits t = false ->
               auto_convert name (VStr t) = Raise ValueError) /\
    (forall d, Host.all_digits d = true ->
               (Host.max_str_digits < String.length d)%nat ->
               auto_convert name (VStr d) = Raise ValueError) /\
    (forall n e ty ctx s v s1 v',
       eval_expr n e ctx s = (Ok v, s1) ->
       auto_convert name v = Ok v' ->
       is_Some (scopes s1 !! scope ctx) ->
       exists s2, eval_stmt (S n) (VarDef name (Some e) ty) ctx s = (Ok tt, s2)
                  /\ getitem ctx (KName name) s2 = (Ok v', s2)) /\
    (forall n e ctx s v s1 v',
       eval_expr n e ctx s = (Ok v, s1) ->
       auto_convert name v = Ok v' ->
       is_Some (Ctx_find (scopes s1) ctx (KName name)) ->
       exists s2, eval_expr (S n) (Assign name e) ctx s = (Ok v', s2)
                  /\ getitem ctx (KName name) s2 = (Ok v', s2)) /\
    (forall n obj e ctx s ref s1 v s2 v' f,
       eval_expr n obj ctx s = (Ok (VFun ref), s1) ->
       eval_expr n e ctx s1 = (Ok v, s2) ->
       auto_convert name v = Ok v' ->
       functions s2 !! ref = Some f ->
       exists s3, eval_expr (S n) (Setattr obj name e) ctx s = (Ok v', s3)
                  /\ functions s3 !! ref ≫= read_attr name = Some v') /\
    (forall n e ty ctx s v s1 exn,
       eval_expr n e ctx s = (Ok v, s1) ->
       auto_convert name v = Raise exn ->
       eval_stmt (S n) (VarDef name (Some e) ty) ctx s = (Raise exn, s1) /\
       eval_expr (S n) (Assign name e) ctx s = (Raise exn, s1)) /\
    (forall n obj e ctx s o s1 v s2 exn,
       eval_expr n obj ctx s = (Ok o, s1) ->
       eval_expr n e ctx s1 = (Ok v, s2) ->
       auto_convert name v = Raise exn ->
       eval_expr (S n) (Setattr obj name e) ctx s = (Raise exn, s2)).
Proof.
  intros name Hn. unfold auto_convert at 1 2 3 4 5 6 7 8. rewrite Hn.
  repeat match goal with |- _ /\ _ => split end.
  - intros d Hne Hd Hlen. rewrite (isdigit_of_all_digits d Hne Hd). cbn.
    unfold Host.int_of_str. rewrite Hd.
    now rewrite (proj2 (Nat.leb_le _ _) Hlen).
  - intros f Hf. now rewrite (int_of_float_finite f Hf).
  - reflexivity.
  - intros t Ht. now rewrite Ht.
  - reflexivity.
  - reflexivity.
  - intros t Ht Hd. rewrite Ht. cbn. unfold Host.int_of_str. now rewrite Hd.
  - intros d Hd Hlen. rewrite isdigit_of_all_digits; [|intros ->; cbn in Hlen; lia|done].
    cbn. unfold Host.int_of_str. rewrite Hd.
    now rewrite (proj2 (Nat.leb_gt _ _) Hlen).
  - intros. eapply VarDef_stores; eauto.
  - intros. eapply Assign_stores; eauto.
  - intros. eapply Setattr_stores; eauto using implicit_int_not_host_field.
  - intros. eapply VarDef_Assign_raise; eauto.
  - intros. eapply Setattr_raise; eauto.
Qed.

(** Under the name [i]: the conversions of 3.0, "5", [true] and "abc", and
    the declaration [var i = 3;], after which [i] holds the integer 3. *)
Lemma stores_apply_auto_convert_witness :
  auto_convert "i" (VStr "5") = Ok (VInt 5) /\
  auto_convert "i" (VFloat (PyFloat.of_Z 3)) = Ok (VInt 3) /\
  auto_convert "i" (VBool true) = Ok (VInt 1) /\
  auto_convert "i" (VStr "abc") = Ok (VStr "abc") /\
  auto_convert "i" (VStr superscript_two) = Raise ValueError /\
  exists s2, eval_stmt 2 (VarDef "i" (Some (number 3)) None) root empty_state
               = (Ok tt, s2)
             /\ getitem root (KName "i") s2 = (Ok (VInt 3), s2).
Proof.
  destruct (stores_apply_auto_convert "i" eq_refl)
    as (Hd & Hf & Hb & Ht & _ & _ & Hs & _ & Hv & _).
  split; [refine (Hd "5" _ eq_refl _); [discriminate | now apply Nat.leb_le]|].
  split; [exact (Hf (PyFloat.of_Z 3) eq_refl)|].
  split; [exact (Hb true)|].
  split; [exact (Ht "abc" eq_refl)|].
  split; [exact (Hs superscript_two eq_refl eq_refl)|].
  apply (Hv 1%nat (number 3) None root empty_state (VFloat (PyFloat.of_Z 3))
            empty_state (VInt 3)).
  - reflexivity.
  - reflexivity.
  - exists ∅. reflexivity.
Defined.

(** C4, the claim as stated fails: an infinite float stored under [i] is
    not converted to an integer, and the string of the digit superscript
    two, which [isdigit] accepts, is neither parsed as an integer nor passed
    through: [var i = ...;] raises and defines nothing. *)
Lemma store_raises_on_infinity_and_superscript :
  auto_convert "i" (VFloat infinity) = Raise OverflowError /\
  eval_program 2 {| stmts := [VarDef "i" (Some (Literal (VFloat infinity))) None] |}
    root empty_state = (Raise OverflowError, empty_state) /\
  Host.isdigit superscript_two = Ok true /\
  auto_convert "i" (VStr superscript_two) = Raise ValueError /\
  eval_program 2 {| stmts := [VarDef "i" (Some (Literal (VStr superscript_two))) None] |}
    root empty_state = (Raise ValueError, empty_state).
Proof. repeat split; vm_compute; reflexivity. Qed.

(** [i = true] after [var i;] stores the integer 1. *)
Lemma Assign_example :
  exists s1 s2,
    eval_stmt 1 (VarDef "i" None None) root empty_state = (Ok tt, s1)
    /\ eval_expr 2 (Assign "i" (Literal (VBool true))) root s1 = (Ok (VInt 1), s2)
    /\ getitem root (KName "i") s2 = (Ok (VInt 1), s2).
Proof.
  do 2 eexists. split; [vm_compute; reflexivity|].
  split; vm_compute; reflexivity.
Qed.

(** [f.name = "5"] stores the integer 5 in the function object. *)
Lemma Setattr_example :
  exists s3,
    eval_expr 2 (Setattr (Var "f") "name" (Literal (VStr "5"))) root state_with_f
      = (Ok (VInt 5), s3)
    /\ functions s3 !! 0%nat ≫= read_attr "name" = Some (VInt 5).
Proof. eexists. split; vm_compute; reflexivity. Qed.

(** ** Declarations without an initializer *)

(** C10: [auto_convert] returns unchanged every value that is neither a
    string, nor a float, nor a boolean (nil, an integer, a function object);
    so, for a name that begins with one of the letters i, j, k, l, m, n, a
    declaration without an initializer defines the name as nil, and reading
    the name then yields nil. *)
Theorem VarDef_without_initializer_stores_nil :
  forall (name : string), is_implicit_int name = true ->
    (forall v, match v with VStr _ | VFloat _ | VBool _ => False | _ => True end ->
               auto_convert name v = Ok v) /\
    (forall n m ty ctx s, is_Some (scopes s !! scope ctx) ->
       exists s', eval_stmt (S n) (VarDef name None ty) ctx s = (Ok tt, s')
                  /\ eval_expr (S m) (Var name) ctx s' = (Ok VNone, s')).
Proof.
  intros name _. split; [apply auto_convert_passes|].
  intros n m ty ctx s Hs.
  destruct (getitem_var_def ctx (KName name) VNone s Hs) as (s' & Hd & Hg & _).
  exists s'. split; [|now apply Var_eval_getitem].
  cbn [eval_stmt]. erewrite mbind_Ok by reflexivity.
  unfold lift. erewrite mbind_Ok by (rewrite auto_convert_passes; done).
  exact Hd.
Qed.

Lemma VarDef_without_initializer_stores_nil_witness :
  auto_convert "i" VNone = Ok VNone /\
  exists s', eval_stmt 1 (VarDef "i" None None) root empty_state = (Ok tt, s')
             /\ eval_expr 1 (Var "i") root s' = (Ok VNone, s').
Proof.
  destruct (VarDef_without_initializer_stores_nil "i" eq_refl) as [Hc Hd].
  split; [exact (Hc VNone I)|].
  apply (Hd 0%nat 0%nat None root empty_state). exists ∅. reflexivity.
Defined.

(** ** Calls *)


(** [LoxFunction.call] without parameters and without arguments: a frame is
    allocated under the closure, and the body block is evaluated against it
    under the handler of [LoxReturn]. *)
Lemma LoxFunction_call_frame eval self s :
  fn_params self = [] ->
  LoxFunction_call eval self [] s
  = except_LoxReturn
      (eval (Block (fn_body self))
            (MkCtx (length (scopes s)) (Some (fn_closure self))))
      (set_scopes (scopes s ++ [∅]) s).
Proof. intros Hp. unfold LoxFunction_call. rewrite Hp. reflexivity. Qed.






(** ** Non-local return *)

Section NoLoxReturn.
Context {A B : Type}.




End NoLoxReturn.


















(** A loop over statements stops at the first one that raises. *)
Lemma for_each_Raise {A} (f : A -> M unit) pre x post s s1 e s2 :
  for_each f pre s = (Ok tt, s1) ->
  f x s1 = (Raise e, s2) ->
  for_each f (pre ++ x :: post) s = (Raise e, s2).
Proof.
  revert s. induction pre as [|y pre IH]; intros s; cbn [for_each app].
  - intros [= <-] Hx. now rewrite (mbind_Raise _ _ _ _ _ Hx).
  - intros H Hx. apply mbind_inv_Ok in H as ([] & s0 & Hy & H).
    rewrite (mbind_Ok _ _ _ _ _ Hy). now apply IH.
Qed.





(** ** What evaluation keeps of the store *)

Lemma store_grows_refl L s : store_grows L s s.
Proof. unfold store_grows. auto. Qed.

Lemma store_grows_trans L s1 s2 s3 :
  store_grows L s1 s2 -> store_grows L s2 s3 -> store_grows L s1 s3.
Proof.
  intros (Ha & Hb & Hc & Hd) (Ha' & Hb' & Hc' & Hd'). unfold store_grows.
  split; [lia|]. split; [lia|]. split; [now transitivity (stdout s2)|].
  intros a Hlt. now rewrite Hd', Hd.
Qed.

Lemma keeps_weaken L {A} (m : M A) (Q Q' : A -> Prop) :
  (forall a, Q a -> Q' a) -> keeps L m Q -> keeps L m Q'.
Proof.
  intros HQ Hm s r s' HL H. destruct (Hm s r s' HL H) as [Hg Hq]. auto.
Qed.

Lemma keeps_bind L {A B} (m : M A) (k : A -> M B) (Q : A -> Prop) (Q' : B -> Prop) :
  keeps L m Q -> (forall a, Q a -> keeps L (k a) Q') -> keeps L (m ≫= k) Q'.
Proof.
  intros Hm Hk s r s' HL. unfold mbind, M_bind.
  destruct (m s) as [r1 s1] eqn:E. destruct (Hm s r1 s1 HL E) as [Hg Hq].
  destruct r1 as [a| | |].
  - intros H. assert (L <= length (scopes s1))%nat as HL1 by (destruct Hg; lia).
    destruct (Hk a (Hq a eq_refl) s1 r s' HL1 H) as [Hg' Hq'].
    split; [eapply store_grows_trans; eauto | exact Hq'].
  - intros [= <- <-]. split; [exact Hg | discriminate].
  - intros [= <- <-]. split; [exact Hg | discriminate].
  - intros [= <- <-]. split; [exact Hg | discriminate].
Qed.

(** A computation that leaves the store as it is. *)
Lemma keeps_pure L {A} (m : M A) :
  (forall s, (m s).2 = s) -> keeps L m (fun _ => True).
Proof.
  intros Hm s r s' _ H. pose proof (Hm s) as Hs. rewrite H in Hs. cbn in Hs.
  subst. split; [apply store_grows_refl | auto].
Qed.

Lemma keeps_Ctx_new L p : keeps L (Ctx_new p) (fun c => (L <= scope c)%nat).
Proof.
  intros s r s' HL [= <- <-]. split.
  - unfold store_grows. cbn. rewrite length_app. cbn.
    split; [lia|]. split; [lia|]. split; [done|].
    intros a Ha. rewrite lookup_app_l by lia. done.
  - intros a [= <-]. exact HL.
Qed.

Lemma keeps_var_def L c k v :
  (L <= scope c)%nat -> keeps L (var_def c k v) (fun _ => True).
Proof.
  intros Hc s r s' HL. unfold var_def.
  destruct (scopes s !! scope c) as [d|];
    [|intros [= <- <-]; split; [apply store_grows_refl | auto]].
  intros [= <- <-]. split; [|auto]. unfold store_grows. cbn.
  rewrite length_insert. split; [lia|]. split; [lia|]. split; [done|].
  intros a Ha. rewrite list_lookup_insert_ne by lia. done.
Qed.

Lemma keeps_setitem L c k v : keeps L (setitem c k v) (fun _ => True).
Proof.
  intros s r s' HL. unfold setitem.
  destruct (Ctx_find (scopes s) c k) as [a0|] eqn:E;
    [|intros [= <- <-]; split; [apply store_grows_refl | auto]].
  intros [= <- <-]. split; [|auto]. unfold store_grows. cbn.
  rewrite length_alter. split; [lia|]. split; [lia|]. split; [done|].
  intros a Ha. destruct (decide (a = a0)) as [->|Hne].
  - rewrite list_lookup_alter_eq. apply Ctx_find_defines in E as [w Hw].
    unfold defines in Hw. destruct (scopes s !! a0) as [d|]; [|done].
    cbn in *. f_equal. apply dom_insert_lookup_L. eauto.
  - now rewrite list_lookup_alter_ne.
Qed.

Lemma keeps_new_function L f : keeps L (new_function f) (fun _ => True).
Proof.
  intros s r s' HL [= <- <-]. split; [|auto]. unfold store_grows. cbn.
  rewrite length_app. cbn. split; [lia|]. split; [lia|]. split; done.
Qed.

Lemma keeps_print L line : keeps L (print line) (fun _ => True).
Proof.
  intros s r s' HL [= <- <-]. split; [|auto]. unfold store_grows. cbn.
  split; [lia|]. split; [lia|]. split; [now apply prefix_app_r|done].
Qed.

Lemma keeps_py_setattr L o attr v : keeps L (py_setattr o attr v) (fun _ => True).
Proof.
  unfold py_setattr.
  destruct o; try (destruct (bool_decide _); apply keeps_pure; reflexivity).
  destruct (host_field attr); [apply keeps_pure; reflexivity|].
  intros s r s' HL. destruct (functions s !! ref);
    intros [= <- <-]; (split; [|auto]); [|apply store_grows_refl].
  unfold store_grows. cbn. rewrite length_insert. split; [lia|].
  split; [lia|]. split; done.
Qed.

Lemma keeps_get_function L ref : keeps L (get_function ref) (fun _ => True).
Proof.
  apply keeps_pure. intros s. unfold get_function. now destruct (_ !! _).
Qed.

Lemma keeps_py_getattr L o attr : keeps L (py_getattr o attr) (fun _ => True).
Proof.
  unfold py_getattr. destruct o; try (apply keeps_pure; reflexivity).
  destruct (host_field attr); [apply keeps_pure; reflexivity|].
  eapply keeps_bind; [apply keeps_get_function|]. intros f _.
  destruct (read_attr attr f); [apply keeps_pure; reflexivity|].
  destruct (bool_decide _); apply keeps_pure; reflexivity.
Qed.

Lemma keeps_for_each L {A} (f : A -> M unit) l :
  (forall x, keeps L (f x) (fun _ => True)) ->
  keeps L (for_each f l) (fun _ => True).
Proof.
  intros Hf. induction l as [|x l IH]; cbn [for_each].
  - apply keeps_pure. reflexivity.
  - eapply keeps_bind; [apply Hf|]. intros _ _. apply IH.
Qed.

Lemma keeps_eval_list L {A B} (f : A -> M B) l :
  (forall x, keeps L (f x) (fun _ => True)) ->
  keeps L (eval_list f l) (fun _ => True).
Proof.
  intros Hf. induction l as [|x l IH]; cbn [eval_list].
  - apply keeps_pure. reflexivity.
  - eapply keeps_bind; [apply Hf|]. intros y _.
    eapply keeps_bind; [apply IH|]. intros ys _. apply keeps_pure. reflexivity.
Qed.

Lemma keeps_except_LoxReturn L (m : M unit) :
  keeps L m (fun _ => True) -> keeps L (except_LoxReturn m) (fun _ => True).
Proof.
  intros Hm s r s' HL. unfold except_LoxReturn.
  destruct (m s) as [r1 s1] eqn:E. destruct (Hm s r1 s1 HL E) as [Hg _].
  destruct r1 as [a|[]| |]; intros [= <- <-]; auto.
Qed.

Lemma keeps_Var L ctx name :
  keeps L (except_KeyError (getitem ctx (KName name)) (raise (NameError name)))
    (fun _ => True).
Proof.
  apply keeps_pure. intros s. unfold except_KeyError, getitem.
  now destruct (_ ≫= _).
Qed.

Lemma keeps_LoxFunction_call L (eval : Stmt -> Ctx -> M unit) self args :
  (forall st ctx, (L <= scope ctx)%nat -> keeps L (eval st ctx) (fun _ => True)) ->
  keeps L (LoxFunction_call eval self args) (fun _ => True).
Proof.
  intros He. unfold LoxFunction_call.
  destruct (negb _); [apply keeps_pure; reflexivity|].
  eapply keeps_bind; [apply keeps_Ctx_new|]. intros ctx Hctx.
  eapply keeps_bind.
  - apply keeps_for_each. intros pa. apply keeps_pure. reflexivity.
  - intros _ _. now apply keeps_except_LoxReturn, He.
Qed.

Lemma keeps_LoxFunction___call__ L (eval : Stmt -> Ctx -> M unit) self args :
  (forall st ctx, (L <= scope ctx)%nat -> keeps L (eval st ctx) (fun _ => True)) ->
  keeps L (LoxFunction___call__ eval self args) (fun _ => True).
Proof.
  intros He. unfold LoxFunction___call__.
  destruct (fn_attrs self !! "call") as [[]|]; try (apply keeps_pure; reflexivity).
  now apply keeps_LoxFunction_call.
Qed.

(** One step of the proof of [keeps] for the evaluator. *)
Ltac keeps_step IHe IHs :=
  first
    [ apply IHe
    | apply IHs; assumption
    | apply keeps_Var
    | apply keeps_setitem
    | apply keeps_print
    | apply keeps_py_setattr
    | apply keeps_py_getattr
    | apply keeps_get_function
    | apply keeps_new_function
    | apply keeps_var_def; assumption
    | apply keeps_eval_list; intros ?
    | apply keeps_for_each; intros ?
    | apply keeps_LoxFunction___call__; intros ? ? ?
    | eapply keeps_bind; [apply keeps_Ctx_new | cbv beta; intros ? ?]
    | eapply keeps_bind; [|intros ? _]
    | match goal with
      | |- keeps _ (if ?c then _ else _) _ => destruct c
      | |- keeps _ (match ?x with _ => _ end) _ => destruct x
      end
    | apply keeps_pure; reflexivity ].

Lemma keeps_eval L n :
  (forall e ctx, keeps L (eval_expr n e ctx) (fun _ => True)) /\
  (forall st ctx, (L <= scope ctx)%nat -> keeps L (eval_stmt n st ctx) (fun _ => True)).
Proof.
  induction n as [|n [IHe IHs]].
  - split; intros; apply keeps_pure; reflexivity.
  - split.
    + intros e ctx. destruct e; cbn [eval_expr]; repeat keeps_step IHe IHs.
    + intros st ctx Hctx. destruct st; cbn [eval_stmt]; repeat keeps_step IHe IHs.
Qed.

(** A block keeps the tables of the store it starts in, whatever its
    environment is: its statements run in a fresh one. *)
Lemma keeps_Block L fuel stmts c :
  keeps L (eval_stmt fuel (Block stmts) c) (fun _ => True).
Proof.
  destruct fuel as [|n]; [apply keeps_pure; reflexivity|]. cbn [eval_stmt].
  eapply keeps_bind; [apply keeps_Ctx_new|]. intros c' Hc'.
  apply keeps_for_each. intros st. now apply (keeps_eval L n).
Qed.

(** ** The scope of a function body *)

(** C1 (as amended): a call of a function object without parameters
    allocates a frame whose parent is the closure, then evaluates the body
    through [Block.eval], which allocates one more environment whose parent
    is the frame: the statements of the body are evaluated against that
    child, under the handler of [LoxReturn].  The table of the frame holds
    no binding when the call ends, however it ends: what the body declares
    is bound elsewhere. *)
Theorem call_evaluates_body_in_child_scope :
  forall (n ref : nat) (self : LoxFunction) (s : State),
    functions s !! ref = Some self ->
    fn_params self = [] ->
    let frame := MkCtx (length (scopes s)) (Some (fn_closure self)) in
    let child := MkCtx (S (length (scopes s))) (Some frame) in
    call (S n) ref [] s
    = except_LoxReturn
        (for_each (fun stmt => eval_stmt n stmt child) (fn_body self))
        (set_scopes (scopes s ++ [∅; ∅]) s)
    /\ (forall fuel r s',
          call fuel ref [] s = (r, s') ->
          scopes s' !! length (scopes s) = Some ∅).
Proof.
  intros n ref self s Hf Hp frame child. split.
  - unfold call.
    erewrite mbind_Ok by (unfold get_function; rewrite Hf; reflexivity).
    rewrite LoxFunction_call_frame by done. fold frame.
    unfold except_LoxReturn. cbn [eval_stmt].
    erewrite mbind_Ok by reflexivity.
    unfold set_scopes. cbn [scopes functions stdout].
    rewrite length_app, Nat.add_1_r, <- app_assoc. reflexivity.
  - intros fuel r s'. unfold call.
    erewrite mbind_Ok by (unfold get_function; rewrite Hf; reflexivity).
    rewrite LoxFunction_call_frame by done. fold frame.
    set (s0 := set_scopes (scopes s ++ [∅]) s).
    destruct (eval_stmt fuel (Block (fn_body self)) frame s0) as [r1 s1] eqn:E.
    assert (scopes s1 !! length (scopes s) = Some ∅) as Hs1.
    { destruct (keeps_Block (S (length (scopes s))) fuel (fn_body self) frame
                  s0 r1 s1) as [(_ & _ & _ & Hdom) _]; [|exact E|].
      - subst s0. cbn. rewrite length_app. cbn. lia.
      - specialize (Hdom (length (scopes s)) (Nat.lt_succ_diag_r _)).
        subst s0. cbn in Hdom. rewrite list_lookup_middle in Hdom by done.
        destruct (scopes s1 !! length (scopes s)) as [d|]; [|discriminate].
        cbn in Hdom. injection Hdom as Hdom. rewrite dom_empty_L in Hdom.
        apply dom_empty_inv_L in Hdom. now subst. }
    unfold except_LoxReturn. rewrite E.
    destruct r1 as [a|[]| |]; intros [= _ <-]; exact Hs1.
Qed.

(** [f()] for [fun f() { var b = 7; }]: the frame's table is empty, the
    binding of [b] is in the child's. *)
Lemma call_evaluates_body_in_child_scope_witness :
  call 3 0 [] state_with_local
  = (Ok VNone,
     set_scopes [{[ KName "f" := VFun 0 ]}; ∅;
                 {[ KName "b" := VFloat (PyFloat.of_Z 7) ]}] state_with_local).
Proof.
  refine (eq_trans (proj1 (call_evaluates_body_in_child_scope 2 0
                             (Build_LoxFunction (VStr "f") []
                                [VarDef "b" (Some (number 7)) None] root ∅)
                             state_with_local eq_refl eq_refl)) _).
  vm_compute. reflexivity.
Defined.

(** C1, the claim as stated fails: after [fun f() { var b = 7; } f();] the
    store holds three tables, the root's, the call frame's and one more; the
    call frame's table is empty and [b] is bound in the third. *)
Lemma body_local_not_in_call_frame :
  exists s', eval_program 6 call_program root empty_state = (Ok tt, s')
             /\ length (scopes s') = 3%nat
             /\ scopes s' !! 1%nat = Some ∅
             /\ defines (scopes s') 1 (KName "b") = None
             /\ defines (scopes s') 2 (KName "b") = Some (VFloat (PyFloat.of_Z 7)).
Proof. eexists. split; [vm_compute; reflexivity|]. vm_compute. auto. Qed.

(** ** Integer conversion in binary operations *)

Lemma int_of_float_whole x :
  PyFloat.is_integer x = true -> Host.int_of_float x = Ok (PyFloat.trunc x).
Proof. destruct x; cbn; intros H; (reflexivity || discriminate). Qed.

(** C2 (as amended): once both operands have evaluated and the operation has
    returned its raw result, the node converts the raw result to an integer
    when both operand values are floats without fractional part and the raw
    result is a float without fractional part, and it returns the raw result
    unchanged when an operand value is not such a float (it is an integer, a
    boolean, a string, or a float with a fractional part) or when the raw
    result is not a float. *)
Theorem BinOp_integer_conversion :
  forall (n : nat) (left_ right_ : Expr) (o : op.BinOperator) (ctx : Ctx)
         (s s1 s2 : State) (left_value right_value result : Value),
    eval_expr n left_ ctx s = (Ok left_value, s1) ->
    eval_expr n right_ ctx s1 = (Ok right_value, s2) ->
    apply_binop o left_value right_value = Ok result ->
    (forall x,
       is_whole_float left_value = true -> is_whole_float right_value = true ->
       result = VFloat x -> PyFloat.is_integer x = true ->
       eval_expr (S n) (BinOp left_ right_ o) ctx s
         = (Ok (VInt (PyFloat.trunc x)), s2)) /\
    (is_whole_float left_value = false \/ is_whole_float right_value = false
       \/ (forall x, result <> VFloat x) ->
     eval_expr (S n) (BinOp left_ right_ o) ctx s = (Ok result, s2)).
Proof.
  intros n left_ right_ o ctx s s1 s2 lv rv raw Hl Hr Ho.
  assert (eval_expr (S n) (BinOp left_ right_ o) ctx s = (BinOp_result lv rv raw, s2))
    as ->.
  { cbn [eval_expr]. rewrite (mbind_Ok _ _ _ _ _ Hl), (mbind_Ok _ _ _ _ _ Hr).
    unfold lift. erewrite mbind_Ok by (rewrite Ho; reflexivity). reflexivity. }
  unfold BinOp_result. split.
  - intros x -> -> -> Hx. cbn. now rewrite (int_of_float_whole x Hx).
  - intros [-> | [-> | Hraw]].
    + reflexivity.
    + now rewrite andb_false_r.
    + destruct (_ && _); [|reflexivity]. destruct raw; try reflexivity.
      now destruct (Hraw f).
Qed.

(** [2 + 2] is the integer 4, [6 / 3] the integer 2, and [2 < 3] stays the
    boolean the comparison returned. *)
Lemma BinOp_integer_conversion_witness :
  eval_expr 2 (BinOp (number 2) (number 2) op.add) root empty_state
    = (Ok (VInt 4), empty_state) /\
  eval_expr 2 (BinOp (number 6) (number 3) op.floordiv) root empty_state
    = (Ok (VInt 2), empty_state) /\
  eval_expr 2 (BinOp (number 2) (number 3) op.lt) root empty_state
    = (Ok (VBool true), empty_state).
Proof.
  split; [|split].
  - exact (proj1 (BinOp_integer_conversion 1 (number 2) (number 2) op.add root
                    empty_state empty_state empty_state
                    (VFloat (PyFloat.of_Z 2)) (VFloat (PyFloat.of_Z 2))
                    (VFloat (PyFloat.of_Z 4)) eq_refl eq_refl eq_refl)
             (PyFloat.of_Z 4) eq_refl eq_refl eq_refl eq_refl).
  - exact (proj1 (BinOp_integer_conversion 1 (number 6) (number 3) op.floordiv root
                    empty_state empty_state empty_state
                    (VFloat (PyFloat.of_Z 6)) (VFloat (PyFloat.of_Z 3))
                    (VFloat (PyFloat.of_Z 2)) eq_refl eq_refl eq_refl)
             (PyFloat.of_Z 2) eq_refl eq_refl eq_refl eq_refl).
  - refine (proj2 (BinOp_integer_conversion 1 (number 2) (number 3) op.lt root
                    empty_state empty_state empty_state
                    (VFloat (PyFloat.of_Z 2)) (VFloat (PyFloat.of_Z 3))
                    (VBool true) eq_refl eq_refl eq_refl) _).
    right. right. intros x. discriminate.
Defined.

(** C2, the claim as stated fails: after [var i = 2;] the name [i] holds the
    integer 2, and [i + 2] has two whole-valued operands and the
    whole-valued raw result 4.0, which the rule in the specification's words
    turns into the integer 4; the node returns the float 4.0. *)
Lemma BinOp_keeps_float_for_integer_operand :
  exists s1,
    eval_stmt 2 (VarDef "i" (Some (number 2)) None) root empty_state = (Ok tt, s1)
    /\ eval_expr 1 (Var "i") root s1 = (Ok (VInt 2), s1)
    /\ eval_expr 1 (number 2) root s1 = (Ok (VFloat (PyFloat.of_Z 2)), s1)
    /\ apply_binop op.add (VInt 2) (VFloat (PyFloat.of_Z 2))
         = Ok (VFloat (PyFloat.of_Z 4))
    /\ BinOp_result_spec (VInt 2) (VFloat (PyFloat.of_Z 2)) (VFloat (PyFloat.of_Z 4))
         = VInt 4
    /\ eval_expr 2 (BinOp (Var "i") (number 2) op.add) root s1
         = (Ok (VFloat (PyFloat.of_Z 4)), s1).
Proof. eexists. split; [vm_compute; reflexivity|]. vm_compute. auto 10. Qed.

(** ** The for loop *)

(** Without an init clause the construction is the one the specification
    describes. *)
Lemma build_for_without_init cond incr body :
  build_for None cond incr body = Ok (build_for_spec None cond incr body).
Proof. reflexivity. Qed.

Lemma Token_is_not_bound : global_name "Token" = Raise (NameError "Token").
Proof. reflexivity. Qed.

(** With an init clause, of either kind, the construction fails. *)
Lemma build_for_with_init init cond incr body :
  build_for (Some init) cond incr body = Raise (NameError "Token").
Proof. reflexivity. Qed.

(** C3: on the clauses of [for (i = 0; i < 3; i = i + 1) print i;] the
    construction raises a [NameError] for [Token], which no import of
    [transformer.py] binds, where the specification's desugaring is a block
    of the initializer and the while node. *)
Theorem build_for_example_raises :
  build_for (Some for_init) (Some for_cond) (Some for_incr) for_body
    = Raise (NameError "Token")
  /\ build_for_spec (Some for_init) (Some for_cond) (Some for_incr) for_body
    = Block [ExprStmt (Assign "i" (number 0));
             While for_cond (Block [for_body; ExprStmt for_incr])].
Proof. split; reflexivity. Qed.

(** The tree that the specification describes for the example, evaluated
    after [var i;], prints 0, 1 and 2. *)
Lemma build_for_spec_example_output :
  exists s',
    eval_program 12
      {| stmts := [VarDef "i" None None;
                   build_for_spec (Some for_init) (Some for_cond) (Some for_incr)
                     for_body] |} root empty_state = (Ok tt, s')
    /\ stdout s' = ["0"; "1"; "2"].
Proof. eexists. split; vm_compute; reflexivity. Qed.


(** * Further properties of the evaluator *)

(** ** Truthiness *)

(** X1: the two truthiness predicates of the code base agree on every
    value. *)
Theorem truthy_is_is_truthy : forall v : Value, truthy v = is_truthy v.
Proof. intros [| [] | | | |]; reflexivity. Qed.

(** X2: the truthiness of the language and the truth value of the host
    differ on exactly the numbers equal to zero that are not booleans and
    the empty string. *)
Theorem is_truthy_differs_from_host :
  forall v : Value,
    is_truthy v <> Host.py_bool v <->
    (v = VInt 0 \/ (exists sg, v = VFloat (S754_zero sg)) \/ v = VStr "").
Proof.
  intros v. split.
  - destruct v as [| b | f | z | s |]; cbn; intros H; try (now destruct H).
    + destruct f; try (exfalso; apply H; reflexivity). right. left. eauto.
    + destruct (Z.eqb_spec z 0) as [Hz|Hz]; [subst; now left | now destruct H].
    + case_bool_decide as Hs; [subst; now right; right | now destruct H].
  - intros [-> | [[sg ->] | ->]]; cbn; discriminate.
Qed.

Lemma is_truthy_differs_from_host_witness :
  is_truthy (VStr "") <> Host.py_bool (VStr "").
Proof.
  exact (proj2 (is_truthy_differs_from_host (VStr ""))
           (or_intror (or_intror eq_refl))).
Defined.

(** ** Auto-coercion *)

(** X3: what [auto_convert] returns it returns unchanged when applied
    again under the same name; under a name that begins with one of the six
    letters it never returns a float, a boolean or a string of digits. *)
Theorem auto_convert_idempotent :
  forall (name : string) (v v' : Value),
    auto_convert name v = Ok v' ->
    auto_convert name v' = Ok v' /\
    (is_implicit_int name = true ->
     match v' with
     | VFloat _ | VBool _ => False
     | VStr t => Host.isdigit t = Ok false
     | _ => True
     end).
Proof.
  intros name v v'. unfold auto_convert.
  destruct (is_implicit_int name); [|intros [= <-]; split; [reflexivity|discriminate]].
  destruct v as [| b | f | z | t |];
    cbn -[Host.isdigit Host.int_of_str Host.int_of_float].
  - intros [= <-]. now split.
  - intros [= <-]. now split.
  - destruct (Host.int_of_float f); cbn; [|discriminate..]. intros [= <-]. now split.
  - intros [= <-]. now split.
  - destruct (Host.isdigit t) as [[]| | |] eqn:E;
      cbn -[Host.isdigit Host.int_of_str]; try discriminate.
    + destruct (Host.int_of_str t); cbn; [|discriminate..]. intros [= <-]. now split.
    + intros [= <-]. rewrite E. now split.
  - intros [= <-]. now split.
Qed.

Lemma auto_convert_idempotent_witness :
  auto_convert "index" (VInt 3) = Ok (VInt 3).
Proof.
  exact (proj1 (auto_convert_idempotent "index" (VFloat (PyFloat.of_Z 3)) (VInt 3)
                  eq_refl)).
Defined.

(** ** Rendering *)

(** X4: the integer conversions do not change what [Print] shows: when the
    raw result of a binary operation is not a float with a fractional part,
    the node's result has the text of the raw result; and a float without
    fractional part stored under any name has the same text after
    [auto_convert]. *)
Theorem integer_conversion_keeps_text :
  (forall l r raw v,
     BinOp_result l r raw = Ok v ->
     (forall x, raw = VFloat x -> PyFloat.is_integer x = true) ->
     lox_str v = lox_str raw) /\
  (forall name x v,
     PyFloat.is_integer x = true ->
     auto_convert name (VFloat x) = Ok v ->
     lox_str v = lox_str (VFloat x)).
Proof.
  split.
  - intros l r raw v. unfold BinOp_result.
    destruct (_ && _); [|now intros [= <-]].
    destruct raw as [| | x | | |]; try (now intros [= <-]).
    intros H Hx. specialize (Hx x eq_refl).
    rewrite (int_of_float_whole x Hx) in H. cbn in H. injection H as <-.
    cbn. now rewrite Hx.
  - intros name x v Hx. unfold auto_convert.
    destruct (is_implicit_int name); [|now intros [= <-]].
    rewrite (int_of_float_whole x Hx). cbn. intros [= <-]. cbn. now rewrite Hx.
Qed.

Lemma integer_conversion_keeps_text_witness :
  lox_str (VInt 4) = lox_str (VFloat (PyFloat.of_Z 4)).
Proof.
  exact (proj1 integer_conversion_keeps_text
           (VFloat (PyFloat.of_Z 2)) (VFloat (PyFloat.of_Z 2))
           (VFloat (PyFloat.of_Z 4)) (VInt 4) eq_refl
           (fun x H => f_equal (fun v => match v with
                                         | VFloat y => PyFloat.is_integer y
                                         | _ => true
                                         end) (eq_sym H))).
Defined.

Lemma occurs_append c a b : occurs c (a +:+ b) = occurs c a || occurs c b.
Proof.
  induction a as [|d a IH]; simpl; [reflexivity|]. now rewrite IH, orb_assoc.
Qed.

(** The text of an integer holds decimal digits and at most a sign. *)
Lemma occurs_pretty_N_go (c : ascii) (x : N) (s : string) :
  (forall d, Ascii.eqb c (pretty_N_char d) = false) ->
  occurs c (pretty_N_go x s) = occurs c s.
Proof.
  intros Hc. revert s. induction (N.lt_wf_0 x) as [x _ IH]; intros s.
  destruct (decide (x = 0%N)) as [->|Hx]; [now rewrite pretty_N_go_0|].
  rewrite pretty_N_go_step by lia. rewrite IH by (apply N.div_lt; lia).
  cbn [occurs]. now rewrite Hc.
Qed.

Lemma occurs_pretty_Z (c : ascii) (z : Z) :
  c = "."%char \/ c = "e"%char -> occurs c (pretty z) = false.
Proof.
  intros Hc.
  assert (forall d, Ascii.eqb c (pretty_N_char d) = false) as Hd.
  { intros d. unfold pretty_N_char.
    destruct Hc as [-> | ->]; repeat case_match; reflexivity. }
  assert (forall p, occurs c (pretty (N.pos p)) = false) as Hp.
  { intros p. unfold pretty, pretty_N. case_decide; [lia|].
    now rewrite occurs_pretty_N_go. }
  destruct z as [|p|p].
  - destruct Hc as [-> | ->]; reflexivity.
  - apply Hp.
  - change (pretty (Z.neg p)) with ("-" +:+ pretty (N.pos p)).
    rewrite occurs_append, Hp. destruct Hc as [-> | ->]; reflexivity.
Qed.

(** The text of a float that is not an infinity or a NaN holds a decimal
    point or an exponent. *)
Lemma occurs_layout ds decpt :
  occurs "." (PyFloat.layout ds decpt) || occurs "e" (PyFloat.layout ds decpt) = true.
Proof.
  unfold PyFloat.layout.
  repeat match goal with
         | |- context [if ?c then _ else _] => destruct c
         end;
    rewrite !occurs_append; cbn [occurs Ascii.eqb Bool.eqb orb andb];
    rewrite ?orb_true_r; reflexivity.
Qed.

Lemma occurs_repr f :
  PyFloat.is_finite f = true ->
  occurs "." (PyFloat.repr f) || occurs "e" (PyFloat.repr f) = true.
Proof.
  destruct f as [sg|sg| |sg m e]; try discriminate; intros _.
  - now destruct sg.
  - cbn [PyFloat.repr]. unfold PyFloat.repr_finite.
    destruct (PyFloat.canonical _ _) as [m' e'].
    destruct (PyFloat.shortest _ _ _ _ _) as [d k].
    destruct (PyFloat.strip_zeros _ _ _) as [d' k'].
    rewrite !occurs_append.
    pose proof (occurs_layout (pretty d')
                  (Z.of_nat (String.length (pretty d')) + k')) as H.
    apply orb_prop in H as [-> | ->]; rewrite ?orb_true_r; reflexivity.
Qed.

Lemma str_of_int_is_not_repr (z : Z) (f : float) :
  PyFloat.is_finite f = true -> Host.str_of_int z <> Ok (PyFloat.repr f).
Proof.
  intros Hf. unfold Host.str_of_int. destruct (_ <? _); [|discriminate].
  intros [= H]. pose proof (occurs_repr f Hf) as Ho. rewrite <- H in Ho.
  rewrite !occurs_pretty_Z in Ho by auto. discriminate.
Qed.

Lemma is_integer_is_finite f :
  PyFloat.is_integer f = true -> PyFloat.is_finite f = true.
Proof. now destruct f. Qed.

(** X5: on every value that is not a function object, [lox_str] and
    [runtime.show] give the same result exactly when the value is an
    integer, a string or a float that is not whole-valued, which both
    render with the host's [str]; they differ on nil, on the booleans and
    on the floats without fractional part. *)
Theorem lox_str_versus_show :
  forall v : Value,
    (forall ref, v <> VFun ref) ->
    (lox_str v = show v <->
     match v with
     | VNone | VBool _ => False
     | VFloat f => PyFloat.is_integer f = false
     | _ => True
     end).
Proof.
  intros v Hv. unfold show. destruct v as [| [] | f | z | s | ref]; cbn.
  - split; [discriminate|intros []].
  - split; [discriminate|intros []].
  - split; [discriminate|intros []].
  - destruct (PyFloat.is_integer f) eqn:Hf; [|tauto].
    split; [|discriminate]. intros H.
    now apply str_of_int_is_not_repr in H; [|apply is_integer_is_finite].
  - tauto.
  - tauto.
  - now destruct (Hv ref).
Qed.

(** The float 0.5 is written [0.5] by both, and the float 4.0 is written
    [4] by the one and [4.0] by the other. *)
Lemma lox_str_versus_show_witness :
  lox_str (VFloat PyFloat.half) = show (VFloat PyFloat.half) /\
  lox_str (VFloat (PyFloat.of_Z 4)) <> show (VFloat (PyFloat.of_Z 4)).
Proof.
  split.
  - refine (proj2 (lox_str_versus_show (VFloat PyFloat.half) _) eq_refl).
    intros ref. discriminate.
  - intros H.
    refine (Bool.diff_true_false
              (proj1 (lox_str_versus_show (VFloat (PyFloat.of_Z 4)) _) H)).
    intros ref. discriminate.
Defined.

(** ** String literals *)

Lemma drop_last_snoc (s : string) (c : ascii) :
  drop_last (s +:+ String c EmptyString) = s.
Proof.
  induction s as [|d s IH]; [reflexivity|].
  destruct s as [|e s]; [reflexivity|].
  simpl in *. now rewrite IH.
Qed.

(** X6: the literal that [STRING] builds from the text that [show_repr]
    gives for a string is that string, whatever characters it holds. *)
Theorem STRING_of_show_repr :
  forall s : string,
    exists token, show_repr (VStr s) = Ok token /\ STRING token = Literal (VStr s).
Proof.
  intros s. eexists. split; [reflexivity|].
  unfold STRING.
  change (slice_1_m1 (quote +:+ s +:+ quote))
    with (drop_last (s +:+ String (ascii_of_nat 34) EmptyString)).
  now rewrite drop_last_snoc.
Qed.

(** ** The kind of a binary operation's result *)

Lemma BinOp_inv n left_ right_ o ctx s v s' :
  eval_expr (S n) (BinOp left_ right_ o) ctx s = (Ok v, s') ->
  exists lv s1 rv raw,
    eval_expr n left_ ctx s = (Ok lv, s1) /\
    eval_expr n right_ ctx s1 = (Ok rv, s') /\
    apply_binop o lv rv = Ok raw /\
    BinOp_result lv rv raw = Ok v.
Proof.
  cbn [eval_expr]. intros H.
  apply mbind_inv_Ok in H as (lv & s1 & Hl & H).
  apply mbind_inv_Ok in H as (rv & s2 & Hr & H).
  apply mbind_inv_Ok in H as (raw & s3 & Hraw & H).
  unfold lift in Hraw, H. injection Hraw as Hraw <-. injection H as H <-.
  now exists lv, s1, rv, raw.
Qed.

Lemma comparison_is_bool o l r raw :
  is_comparison o = true -> apply_binop o l r = Ok raw -> exists b, raw = VBool b.
Proof.
  destruct o; try discriminate; intros _; cbn [apply_binop];
    unfold Host.py_order, Host.py_eq;
    repeat match goal with
           | |- context [match ?x with _ => _ end] => destruct x
           end; cbn; intros [= <-]; eauto.
Qed.

(** X8: a comparison or equality node that yields a value yields a
    boolean, whatever its operands are. *)
Theorem comparison_yields_boolean :
  forall (n : nat) (left_ right_ : Expr) (o : op.BinOperator) (ctx : Ctx)
         (s s' : State) (v : Value),
    is_comparison o = true ->
    eval_expr (S n) (BinOp left_ right_ o) ctx s = (Ok v, s') ->
    exists b, v = VBool b.
Proof.
  intros n left_ right_ o ctx s s' v Ho H.
  apply BinOp_inv in H as (lv & s1 & rv & raw & _ & _ & Hraw & Hres).
  destruct (comparison_is_bool o lv rv raw Ho Hraw) as [b ->].
  unfold BinOp_result in Hres. destruct (_ && _); injection Hres as <-; eauto.
Qed.

Lemma comparison_yields_boolean_witness : exists b, VBool true = VBool b.
Proof.
  exact (comparison_yields_boolean 1 (number 2) (number 3) op.lt root
           empty_state empty_state (VBool true) eq_refl eq_refl).
Defined.

Lemma arithmetic_of_floats_is_float o a b raw :
  is_arithmetic o = true ->
  apply_binop o (VFloat a) (VFloat b) = Ok raw -> exists x, raw = VFloat x.
Proof.
  destruct o; try discriminate; intros _; cbn.
  - intros [= <-]; eauto.
  - intros [= <-]; eauto.
  - intros [= <-]; eauto.
  - destruct (PyFloat.is_zero b); [discriminate|]. intros [= <-]; eauto.
Qed.

(** X9: an arithmetic node whose operands both evaluate to floats without
    fractional part never yields a float: when it yields a value, the value
    is an integer. *)
Theorem arithmetic_of_whole_floats_yields_integer :
  forall (n : nat) (left_ right_ : Expr) (o : op.BinOperator) (ctx : Ctx)
         (s s1 s2 s' : State) (a b : float) (v : Value),
    is_arithmetic o = true ->
    eval_expr n left_ ctx s = (Ok (VFloat a), s1) ->
    eval_expr n right_ ctx s1 = (Ok (VFloat b), s2) ->
    PyFloat.is_integer a = true -> PyFloat.is_integer b = true ->
    eval_expr (S n) (BinOp left_ right_ o) ctx s = (Ok v, s') ->
    exists z, v = VInt z.
Proof.
  intros n left_ right_ o ctx s s1 s2 s' a b v Ho Hl Hr Ha Hb H.
  apply BinOp_inv in H as (lv & t1 & rv & raw & Hl' & Hr' & Hraw & Hres).
  rewrite Hl in Hl'. injection Hl' as <- <-.
  rewrite Hr in Hr'. injection Hr' as <- <-.
  destruct (arithmetic_of_floats_is_float o a b raw Ho Hraw) as [x ->].
  unfold BinOp_result in Hres. cbn in Hres. rewrite Ha, Hb in Hres. cbn in Hres.
  destruct (Host.int_of_float x); cbn in Hres; try discriminate.
  injection Hres as <-. eauto.
Qed.

Lemma arithmetic_of_whole_floats_yields_integer_witness : exists z, VInt 6 = VInt z.
Proof.
  exact (arithmetic_of_whole_floats_yields_integer 1 (number 2) (number 3) op.mul
           root empty_state empty_state empty_state empty_state
           (PyFloat.of_Z 2) (PyFloat.of_Z 3) (VInt 6)
           eq_refl eq_refl eq_refl eq_refl eq_refl eq_refl).
Defined.

(** ** Division by zero *)

(** X10: [runtime.floordiv] never returns a value for a divisor that is a
    zero ([0], [0.0], [-0.0] or [false]); it raises [ZeroDivisionError] when
    the dividend is a float or when both operands are integers or
    booleans. *)
Theorem floordiv_by_zero :
  forall l r : Value,
    is_zero_number r = true ->
    (forall v, apply_binop op.floordiv l r <> Ok v) /\
    (forall a, l = VFloat a ->
               apply_binop op.floordiv l r = Raise ZeroDivisionError) /\
    (forall x y, Host.as_num l = Some (Host.NInt x) ->
                 Host.as_num r = Some (Host.NInt y) ->
                 apply_binop op.floordiv l r = Raise ZeroDivisionError).
Proof.
  intros l r Hr. cbn [apply_binop]. unfold Host.py_floordiv.
  assert (exists b, Host.as_num r = Some b /\
                    match b with
                    | Host.NInt y => y = 0
                    | Host.NFloat y => PyFloat.is_zero y = true
                    end) as (b & -> & Hb).
  { destruct r as [| [] | f | z | |]; try discriminate; cbn in *.
    - now exists (Host.NInt 0).
    - now exists (Host.NFloat f).
    - exists (Host.NInt z). split; [reflexivity|]. now apply Z.eqb_eq. }
  split; [|split].
  - intros v. destruct (Host.as_num l) as [[x|x]|]; [| |discriminate];
      destruct b as [y|y]; cbn; subst; try rewrite Hb; try discriminate.
    destruct (Host.float_of_int x); cbn; try rewrite Hb; discriminate.
  - intros a ->. cbn. destruct b as [y|y]; cbn; subst; [|now rewrite Hb].
    reflexivity.
  - intros x y Hl [= ->]. rewrite Hl. cbn. now subst.
Qed.

Lemma floordiv_by_zero_witness :
  apply_binop op.floordiv (VFloat (PyFloat.of_Z 1)) (VFloat (PyFloat.of_Z 0))
    = Raise ZeroDivisionError.
Proof.
  exact (proj1 (proj2 (floordiv_by_zero (VFloat (PyFloat.of_Z 1))
                         (VFloat (PyFloat.of_Z 0)) eq_refl))
           (PyFloat.of_Z 1) eq_refl).
Defined.

(** ** Equality *)

Lemma SFcompare_refl (f : float) : f <> S754_nan -> SFcompare f f = Some Eq.
Proof.
  destruct f as [sg|sg| |sg m e]; intros Hn; cbn; try (now destruct Hn);
    try (now destruct sg).
  rewrite Z.compare_refl.
  change (Pos.compare_cont Eq m m) with (Pos.compare m m).
  rewrite Pos.compare_refl. now destruct sg.
Qed.

(** X11: [==] holds between every value and itself, a function object
    included, except a NaN, and [!=] is then false; no string equals a
    number or a boolean; a boolean equals the integer 0 or 1 that it is in
    the host. *)
Theorem equality_of_values :
  (forall v : Value,
     v <> VFloat S754_nan ->
     apply_binop op.eq v v = Ok (VBool true) /\
     apply_binop op.ne v v = Ok (VBool false)) /\
  (forall (t : string) (v : Value) (a : Host.Num),
     Host.as_num v = Some a ->
     apply_binop op.eq (VStr t) v = Ok (VBool false) /\
     apply_binop op.eq v (VStr t) = Ok (VBool false)) /\
  (forall b : bool, apply_binop op.eq (VBool b) (VInt (Z.b2z b)) = Ok (VBool true)).
Proof.
  split; [|split].
  - intros v Hv.
    assert (Host.py_eq v v = Ok true) as H.
    { destruct v as [| b | f | z | t | ref]; cbn.
      - reflexivity.
      - now rewrite Z.compare_refl.
      - rewrite SFcompare_refl; [reflexivity|]. now intros ->.
      - now rewrite Z.compare_refl.
      - now rewrite bool_decide_eq_true_2.
      - now rewrite bool_decide_eq_true_2. }
    cbn [apply_binop]. now rewrite H.
  - intros t v a Ha. cbn [apply_binop]. unfold Host.py_eq. rewrite Ha. cbn.
    destruct v; try discriminate; auto.
  - intros []; reflexivity.
Qed.

Lemma equality_of_values_witness :
  apply_binop op.eq (VFun 0) (VFun 0) = Ok (VBool true) /\
  apply_binop op.eq (VStr "5") (VInt 5) = Ok (VBool false).
Proof.
  split.
  - refine (proj1 (proj1 equality_of_values (VFun 0) _)). discriminate.
  - exact (proj1 (proj1 (proj2 equality_of_values) "5" (VInt 5) (Host.NInt 5)
                    eq_refl)).
Defined.

(** ** Names declared in a block or in a function body *)





(** ** Errors *)

(** X14: an exception aborts the program at the statement that raises it:
    the statements after it are not evaluated, and the store is the one the
    failing statement left.  A call of a function without parameters lets
    through every exception of its body other than [LoxReturn]. *)
Theorem exceptions_abort_evaluation :
  (forall n pre st post ctx s s1 e s2,
     for_each (fun stmt => eval_stmt n stmt ctx) pre s = (Ok tt, s1) ->
     eval_stmt n st ctx s1 = (Raise e, s2) ->
     eval_program n {| stmts := pre ++ st :: post |} ctx s = (Raise e, s2)) /\
  (forall n ref self s e s',
     functions s !! ref = Some self ->
     fn_params self = [] ->
     eval_stmt n (Block (fn_body self))
               (MkCtx (length (scopes s)) (Some (fn_closure self)))
               (set_scopes (scopes s ++ [∅]) s)
       = (Raise e, s') ->
     (forall v, e <> LoxReturn v) ->
     call n ref [] s = (Raise e, s')).
Proof.
  split.
  - intros n pre st post ctx s s1 e s2 Hpre Hst. unfold eval_program. cbn [stmts].
    eapply for_each_Raise; eauto.
  - intros n ref self s e s' Hf Hlen Hb He. unfold call.
    erewrite mbind_Ok by (unfold get_function; rewrite Hf; reflexivity).
    rewrite LoxFunction_call_frame by done. unfold except_LoxReturn. rewrite Hb.
    destruct e; try reflexivity. now destruct (He value).
Qed.

(** [print "a"; u; print "b";] prints [a] and stops at the unbound [u]. *)
Lemma exceptions_abort_evaluation_witness :
  eval_program 2
    {| stmts := [Print (Literal (VStr "a"))] ++ ExprStmt (Var "u")
                  :: [Print (Literal (VStr "b"))] |} root empty_state
  = (Raise (NameError "u"), {| scopes := [∅]; functions := []; stdout := ["a"] |}).
Proof.
  exact (proj1 exceptions_abort_evaluation 2%nat [Print (Literal (VStr "a"))]
           (ExprStmt (Var "u")) [Print (Literal (VStr "b"))] root empty_state
           {| scopes := [∅]; functions := []; stdout := ["a"] |}
           (NameError "u")
           {| scopes := [∅]; functions := []; stdout := ["a"] |}
           eq_refl eq_refl).
Defined.

(** X7: a variable reference whose name no environment of the chain binds
    raises [NameError] for that name and leaves the store as it is; no
    variable reference ever ends with a [KeyError]. *)
Theorem Var_unbound_raises_NameError :
  forall (n : nat) (name : string) (ctx : Ctx) (s : State),
    (Ctx_find (scopes s) ctx (KName name) = None ->
     eval_expr (S n) (Var name) ctx s = (Raise (NameError name), s)) /\
    (forall k s', eval_expr (S n) (Var name) ctx s <> (Raise (KeyError k), s')).
Proof.
  intros n name ctx s. cbn [eval_expr]. unfold except_KeyError, getitem. split.
  - intros ->. reflexivity.
  - intros k s'. destruct (_ ≫= _); discriminate.
Qed.

Lemma Var_unbound_raises_NameError_witness :
  eval_expr 1 (Var "u") root empty_state = (Raise (NameError "u"), empty_state).
Proof.
  exact (proj1 (Var_unbound_raises_NameError 0 "u" root empty_state) eq_refl).
Defined.

(** ** Closures *)

Lemma defines_app_empty sc a k : defines (sc ++ [∅; ∅]) a k = defines sc a k.
Proof.
  unfold defines. destruct (decide (a < length sc)%nat) as [Hlt|Hge].
  - now rewrite lookup_app_l.
  - rewrite lookup_app_r by lia. rewrite (lookup_ge_None_2 sc) by lia.
    destruct (a - length sc)%nat as [|[|i]]; reflexivity.
Qed.

Lemma Ctx_find_app_empty sc c k : Ctx_find (sc ++ [∅; ∅]) c k = Ctx_find sc c k.
Proof.
  induction c as [a|a p IH] using Ctx_induction; cbn [Ctx_find];
    rewrite defines_app_empty; [reflexivity|]. now rewrite IH.
Qed.

Lemma defines_outside sc a k : (length sc <= a)%nat -> defines sc a k = None.
Proof. intros H. unfold defines. now rewrite lookup_ge_None_2. Qed.

(** Lookup from the fresh child of the fresh frame of a call without
    parameters is lookup from the closure. *)
Lemma Ctx_find_fresh_child sc closure k :
  Ctx_find (sc ++ [∅; ∅])
    (MkCtx (S (length sc)) (Some (MkCtx (length sc) (Some closure)))) k
  = Ctx_find sc closure k.
Proof.
  cbn [Ctx_find]. rewrite !defines_app_empty.
  rewrite !defines_outside by lia. apply Ctx_find_app_empty.
Qed.

(** X15: a function without parameters whose body is [return x;] returns
    the value that its closure environment gives to [x] in the store of the
    call, not the value [x] had when the function was declared; the call
    leaves two empty environments behind and changes nothing else. *)
Theorem call_reads_variable_at_call_time :
  forall (n ref : nat) (self : LoxFunction) (x : string) (s : State) (v : Value),
    functions s !! ref = Some self ->
    fn_params self = [] ->
    fn_body self = [Return (Some (Var x))] ->
    getitem (fn_closure self) (KName x) s = (Ok v, s) ->
    call (S (S (S n))) ref [] s = (Ok v, set_scopes (scopes s ++ [∅; ∅]) s).
Proof.
  intros n ref self x s v Hf Hp Hb Hx. unfold call.
  erewrite mbind_Ok by (unfold get_function; rewrite Hf; reflexivity).
  rewrite LoxFunction_call_frame by exact Hp.
  rewrite Hb. unfold except_LoxReturn. cbn [eval_stmt].
  erewrite mbind_Ok by reflexivity. cbn [for_each].
  unfold set_scopes. cbn [scopes functions stdout].
  rewrite length_app, Nat.add_1_r, <- app_assoc. cbn [app length].
  set (child := MkCtx _ _). set (s2 := Build_State _ _ _).
  assert (eval_expr (S n) (Var x) child s2 = (Ok v, s2)) as Hv.
  { apply Var_eval_getitem. unfold getitem in *. subst s2 child.
    cbn [scopes]. rewrite Ctx_find_fresh_child.
    destruct (Ctx_find (scopes s) (fn_closure self) (KName x)) as [a|];
      [|discriminate]. cbn in *. rewrite defines_app_empty.
    destruct (defines (scopes s) a (KName x)); [|discriminate].
    now injection Hx as ->. }
  erewrite (mbind_Raise _ _ _ (LoxReturn v) s2)
    by (rewrite (mbind_Ok _ _ _ _ _ Hv); reflexivity).
  reflexivity.
Qed.

(** The store of the witness is the one the program leaves. *)
Lemma state_after_reassignment_reached :
  eval_program 3
    {| stmts := [VarDef "x" (Some (number 1)) None;
                 Function "f" [] [Return (Some (Var "x"))];
                 ExprStmt (Assign "x" (number 2))] |} root empty_state
  = (Ok tt, state_after_reassignment).
Proof. vm_compute. reflexivity. Qed.

(** After [var x = 1; fun f() { return x; } x = 2;] the call [f()] is 2. *)
Lemma call_reads_variable_at_call_time_witness :
  call 3 0 [] state_after_reassignment
  = (Ok (VFloat (PyFloat.of_Z 2)),
     set_scopes (scopes state_after_reassignment ++ [∅; ∅]) state_after_reassignment).
Proof.
  exact (call_reads_variable_at_call_time 0 0
           (Build_LoxFunction (VStr "f") [] [Return (Some (Var "x"))] root ∅)
           "x" state_after_reassignment (VFloat (PyFloat.of_Z 2))
           eq_refl eq_refl eq_refl eq_refl).
Defined.

(** ** Attributes *)

(** X16: an attribute assigned on a function object reads back, through an
    expression that evaluates to the same object, as the value that was
    stored (the value converted by [auto_convert] under the attribute's
    name); assignment to an attribute of anything that is not a function
    object raises, once both operands are evaluated and the value is
    converted: [AttributeError], or [TypeError] when the attribute is
    [__class__]. *)
Theorem attribute_round_trip :
  forall (n : nat) (obj e : Expr) (attr : string) (ctx : Ctx)
         (s s1 s2 : State) (o v v' : Value),
    eval_expr n obj ctx s = (Ok o, s1) ->
    eval_expr n e ctx s1 = (Ok v, s2) ->
    auto_convert attr v = Ok v' ->
    (forall ref f,
       o = VFun ref -> functions s2 !! ref = Some f -> host_field attr = false ->
       exists s3,
         eval_expr (S n) (Setattr obj attr e) ctx s = (Ok v', s3) /\
         forall m target,
           eval_expr m target ctx s3 = (Ok (VFun ref), s3) ->
           eval_expr (S m) (Getattr target attr) ctx s3 = (Ok v', s3)) /\
    (match o with VFun _ => False | _ => True end ->
     eval_expr (S n) (Setattr obj attr e) ctx s
     = (Raise (if bool_decide (attr = "__class__")
               then TypeError (NotAClass v') else AttributeError), s2)).
Proof.
  intros n obj e attr ctx s s1 s2 o v v' Ho He Hc. split.
  - intros ref f -> Hf Hh.
    destruct (Setattr_stores n obj attr e ctx s ref s1 v s2 v' f Ho He Hc Hh Hf)
      as (s3 & Hset & Hread).
    exists s3. split; [exact Hset|]. intros m target Ht. cbn [eval_expr].
    rewrite (mbind_Ok _ _ _ _ _ Ht). unfold py_getattr. rewrite Hh.
    unfold get_function, mbind at 1, M_bind.
    destruct (functions s3 !! ref) as [g|]; [|discriminate]. cbn in Hread.
    now rewrite Hread.
  - intros Hno.
    assert (eval_expr (S n) (Setattr obj attr e) ctx s
            = (py_setattr o attr v';; mret v') s2) as ->.
    { cbn [eval_expr]. rewrite (mbind_Ok _ _ _ _ _ Ho), (mbind_Ok _ _ _ _ _ He).
      unfold lift. erewrite mbind_Ok by (rewrite Hc; reflexivity). reflexivity. }
    unfold py_setattr. destruct o; try (now destruct Hno);
      now destruct (bool_decide _).
Qed.

(** [f.limit = 0.5] stores 0, and [f.limit] then reads 0; [nil.limit = 1]
    raises. *)
Lemma attribute_round_trip_witness :
  (exists s3,
     eval_expr 2 (Setattr (Var "f") "limit" (Literal (VFloat PyFloat.half))) root
       state_with_f = (Ok (VInt 0), s3)
     /\ eval_expr 2 (Getattr (Var "f") "limit") root s3 = (Ok (VInt 0), s3)) /\
  eval_expr 2 (Setattr (Literal VNone) "limit" (number 1)) root empty_state
    = (Raise AttributeError, empty_state).
Proof.
  split.
  - destruct (proj1 (attribute_round_trip 1 (Var "f") (Literal (VFloat PyFloat.half))
                       "limit" root state_with_f state_with_f state_with_f
                       (VFun 0) (VFloat PyFloat.half) (VInt 0)
                       eq_refl eq_refl eq_refl)
                0%nat _ eq_refl eq_refl eq_refl) as (s3 & Hset & Hget).
    exists s3. split; [exact Hset|]. apply Hget.
    revert Hset. vm_compute. intros [= <-]. reflexivity.
  - exact (proj2 (attribute_round_trip 1 (Literal VNone) (number 1) "limit" root
                    empty_state empty_state empty_state VNone
                    (VFloat (PyFloat.of_Z 1)) (VInt 1) eq_refl eq_refl eq_refl) I).
Defined.

(** ** Loops *)

(** X17: a while statement whose condition is the literal [true] never
    completes normally, whatever the fuel: it ends only with an exception
    of its body, a [LoxReturn] among them.  So does the tree that
    [build_for] builds from a for loop without init clause and without
    condition. *)
Theorem loop_without_condition_never_completes :
  (forall fuel body ctx s s',
     eval_stmt fuel (While (Literal (VBool true)) body) ctx s <> (Ok tt, s')) /\
  (forall incr body tree,
     build_for None None incr body = Ok tree ->
     forall fuel ctx s s', eval_stmt fuel tree ctx s <> (Ok tt, s')).
Proof.
  assert (forall fuel body ctx s s',
            eval_stmt fuel (While (Literal (VBool true)) body) ctx s <> (Ok tt, s'))
    as Hloop.
  { induction fuel as [|n IH]; intros body ctx s s'; [discriminate|].
    cbn [eval_stmt]. destruct n as [|n]; [discriminate|].
    erewrite mbind_Ok by reflexivity. cbn [is_truthy].
    intros H. apply mbind_inv_Ok in H as ([] & s1 & _ & H). now apply IH in H. }
  split; [exact Hloop|].
  intros incr body tree [= <-] fuel ctx s s'.
  destruct fuel as [|n]; [discriminate|]. cbn [eval_stmt].
  erewrite mbind_Ok by reflexivity. cbn [for_each]. intros H.
  apply mbind_inv_Ok in H as ([] & s1 & H & _). now apply Hloop in H.
Qed.

Lemma loop_without_condition_never_completes_witness :
  eval_stmt 5 (Block [While (Literal (VBool true)) (Print (Literal (VStr "x")))])
    root empty_state <> (Ok tt, empty_state).
Proof.
  exact (proj2 loop_without_condition_never_completes None
           (Print (Literal (VStr "x"))) _ eq_refl 5%nat root empty_state empty_state).
Defined.

(** X18: a do-while statement behaves as its body followed by the while
    statement with the same condition and body: short of running out of
    fuel, every outcome of the former with some fuel is the outcome of the
    latter with the same fuel, and every outcome of the latter is the
    outcome of the former with one more unit. *)
Theorem DoWhile_is_body_then_While :
  forall (n : nat) (body : Stmt) (condition : Expr) (ctx : Ctx),
    extends (eval_stmt n (DoWhileStmt body condition) ctx)
            (eval_stmt n body ctx;; eval_stmt n (While condition body) ctx) /\
    extends (eval_stmt n body ctx;; eval_stmt n (While condition body) ctx)
            (eval_stmt (S n) (DoWhileStmt body condition) ctx).
Proof.
  intros n body condition ctx. induction n as [|n [IH1 IH2]].
  - split; intros s r s' [= <- _] Hr; now destruct Hr.
  - split.
    + cbn [eval_stmt]. apply extends_bind; [apply fuel_step|]. intros _.
      apply extends_bind; [apply extends_refl|]. intros c.
      destruct (is_truthy c); cbn [negb]; [exact IH1 | apply extends_refl].
    + cbn [eval_stmt]. apply extends_bind; [apply extends_refl|]. intros _.
      apply extends_bind; [apply fuel_step|]. intros c.
      destruct (is_truthy c); cbn [negb]; [exact IH2 | apply extends_refl].
Qed.

(** ** Function declarations *)

(** X19: a function declaration creates a function object that captures
    the environment of the declaration and binds the function's name to it
    there, so that the name resolves to the object from that environment,
    hence from the frames of the function's own calls. *)
Theorem Function_declaration_binds_name :
  forall (n : nat) (name : string) (params : list Param) (body : list Stmt)
         (ctx : Ctx) (s : State),
    is_Some (scopes s !! scope ctx) ->
    exists s',
      eval_stmt (S n) (Function name params body) ctx s = (Ok tt, s') /\
      getitem ctx (KName name) s' = (Ok (VFun (length (functions s))), s') /\
      functions s' !! length (functions s)
        = Some {| fn_name := VStr name; fn_params := params; fn_body := body;
                  fn_closure := ctx; fn_attrs := ∅ |} /\
      (forall ref, (ref < length (functions s))%nat ->
                   functions s' !! ref = functions s !! ref).
Proof.
  intros n name params body ctx s Hs. cbn [eval_stmt].
  erewrite mbind_Ok by reflexivity.
  set (f := Build_LoxFunction _ _ _ _ _).
  destruct (getitem_var_def ctx (KName name) (VFun (length (functions s)))
              (set_functions (functions s ++ [f]) s) Hs)
    as (s' & Hd & Hg & Hfs & _).
  exists s'. split; [exact Hd|]. split; [exact Hg|]. rewrite Hfs. cbn. split.
  - now rewrite list_lookup_middle.
  - intros ref Href. now rewrite lookup_app_l.
Qed.

Lemma Function_declaration_binds_name_witness :
  exists s',
    eval_stmt 1 (Function "f" [] []) root empty_state = (Ok tt, s') /\
    getitem root (KName "f") s' = (Ok (VFun 0), s').
Proof.
  destruct (Function_declaration_binds_name 0 "f" [] [] root empty_state)
    as (s' & He & Hg & _).
  - exists ∅. reflexivity.
  - exists s'. split; [exact He | exact Hg].
Defined.

(** ** Calls of functions with parameters *)


